(** * The file-backed wallet: sealed secret state and signer dispatch

    A shallow embedding of [wallet/file/file.go].  Go strings are byte
    strings ([string]), byte slices are [list byte], unsigned integers are
    [N].  Functions that return [(T, error)] return an [outcome T]; a run-time
    panic is a third outcome.  The random source and the file system are
    threaded explicitly.  Everything the file imports from other packages
    (Argon2, Deoxys-II, encoding/json, the signer constructors, ...) is an
    interface, and the facts used about it are stated as laws. *)

From Stdlib Require Import NArith Strings.Ascii Strings.String Strings.Byte.
From Stdlib Require Import DecimalString DecimalN.
From stdpp Require Import base option list strings gmap.

Open Scope string_scope.
Open Scope list_scope.

(** ** Outcomes of Go calls *)

(** Go [error] values.  [Errorf] is [fmt.Errorf] without [%w], [Errorw] is
    [fmt.Errorf] wrapping a cause with [%w]; the other constructors are the
    error values handed back by the imported packages. *)
Inductive error : Type :=
  | Errorf (format : string) (args : list string)
  | Errorw (format : string) (args : list string) (cause : error)
  | ErrRand (msg : string)            (* crypto/rand *)
  | ErrDeoxysKeySize                  (* deoxysii: invalid key size *)
  | ErrDeoxysOpen                     (* deoxysii.ErrOpen *)
  | ErrJSON (msg : string)            (* encoding/json *)
  | ErrMapstructure (msg : string)    (* mapstructure.Decode *)
  | ErrBip39 (msg : string)           (* go-bip39 *)
  | ErrSigner (msg : string)          (* signer constructors *)
  | ErrIO (msg : string).             (* os / ioutil *)

Inductive outcome (A : Type) : Type :=
  | Ok (a : A)
  | Err (e : error)
  | Panic (msg : string).
Arguments Ok {A} a.
Arguments Err {A} e.
Arguments Panic {A} msg.

#[global] Instance outcome_ret : MRet outcome := fun _ a => Ok a.
#[global] Instance outcome_bind : MBind outcome := fun _ _ f m =>
  match m with
  | Ok a => f a
  | Err e => Err e
  | Panic msg => Panic msg
  end.

#[global] Instance outcome_fmap : FMap outcome := fun _ _ f m =>
  match m with
  | Ok a => Ok (f a)
  | Err e => Err e
  | Panic msg => Panic msg
  end.

(** ** Constants of the package *)

Definition Kind : string := "file".
Definition stateKeySize : nat := 32.
Definition stateNonceSize : nat := 32.
Definition kdfSaltSize : nat := 32.

(** ** Data model *)

Record walletConfig : Type := mkWalletConfig {
  cfg_Algorithm : string;
  cfg_Number : N;
}.

Record secretState : Type := mkSecretState {
  Algorithm : string;
  Data : string;
}.

Record kdfArgon2 : Type := mkKdfArgon2 {
  Salt : list byte;
  Time : N;
  Memory : N;
  Threads : N;
}.

(** [Argon2] is a pointer in the source; [None] is the nil pointer. *)
Record secretStateKDF : Type := mkSecretStateKDF {
  Argon2 : option kdfArgon2;
}.

Record secretStateEnvelope : Type := mkEnvelope {
  env_KDF : secretStateKDF;
  env_Nonce : list byte;
  env_Data : list byte;
}.

(** ** UTF-8, as [unicode/utf8] decides it

    A Go string is any sequence of bytes.  [encoding/json] documents that
    "string values encode as JSON strings coerced to valid UTF-8, replacing
    invalid bytes with the Unicode replacement rune": a byte that starts no
    well-formed sequence is written as U+FFFD, and that is what
    [json.Unmarshal] reads back.  [toValidUTF8] is that coercion and
    [utf8_ValidString] is [utf8.ValidString]. *)

Definition byteval (c : ascii) : N := N_of_ascii c.

Definition in_range (lo hi : N) (c : ascii) : bool :=
  ((lo <=? byteval c) && (byteval c <=? hi))%N.

Definition is_cont : ascii -> bool := in_range 128 191.

(** Second byte of a three-byte sequence led by [c0] (the accept ranges of
    [unicode/utf8]: no overlong forms, no surrogates). *)
Definition second3 (c0 c1 : ascii) : bool :=
  if (byteval c0 =? 224)%N then in_range 160 191 c1
  else if (byteval c0 =? 237)%N then in_range 128 159 c1
  else in_range 225 239 c0 && is_cont c1.

(** Second byte of a four-byte sequence led by [c0]. *)
Definition second4 (c0 c1 : ascii) : bool :=
  if (byteval c0 =? 240)%N then in_range 144 191 c1
  else if (byteval c0 =? 244)%N then in_range 128 143 c1
  else in_range 241 243 c0 && is_cont c1.

Definition seq2 (c0 c1 : ascii) : bool := in_range 194 223 c0 && is_cont c1.
Definition seq3 (c0 c1 c2 : ascii) : bool := second3 c0 c1 && is_cont c2.
Definition seq4 (c0 c1 c2 c3 : ascii) : bool :=
  second4 c0 c1 && is_cont c2 && is_cont c3.

(** The UTF-8 encoding of U+FFFD, [EF BF BD]. *)
Definition replacementChar (rest : string) : string :=
  String (ascii_of_N 239) (String (ascii_of_N 191) (String (ascii_of_N 189) rest)).

Fixpoint toValidUTF8 (s : string) : string :=
  match s with
  | EmptyString => EmptyString
  | String c0 r0 =>
    if (byteval c0 <? 128)%N then String c0 (toValidUTF8 r0) else
    match r0 with
    | EmptyString => replacementChar (toValidUTF8 r0)
    | String c1 r1 =>
      if seq2 c0 c1 then String c0 (String c1 (toValidUTF8 r1)) else
      match r1 with
      | EmptyString => replacementChar (toValidUTF8 r0)
      | String c2 r2 =>
        if seq3 c0 c1 c2
        then String c0 (String c1 (String c2 (toValidUTF8 r2))) else
        match r2 with
        | EmptyString => replacementChar (toValidUTF8 r0)
        | String c3 r3 =>
          if seq4 c0 c1 c2 c3
          then String c0 (String c1 (String c2 (String c3 (toValidUTF8 r3))))
          else replacementChar (toValidUTF8 r0)
        end
      end
    end
  end.

Fixpoint utf8_ValidString (s : string) : bool :=
  match s with
  | EmptyString => true
  | String c0 r0 =>
    if (byteval c0 <? 128)%N then utf8_ValidString r0 else
    match r0 with
    | EmptyString => false
    | String c1 r1 =>
      if seq2 c0 c1 then utf8_ValidString r1 else
      match r1 with
      | EmptyString => false
      | String c2 r2 =>
        if seq3 c0 c1 c2 then utf8_ValidString r2 else
        match r2 with
        | EmptyString => false
        | String c3 r3 =>
          if seq4 c0 c1 c2 c3 then utf8_ValidString r3 else false
        end
      end
    end
  end.

(** The string with the given byte values. *)
Definition bytes_string (l : list N) : string :=
  string_of_list_ascii (ascii_of_N <$> l).

(** What [json.Unmarshal] reads back from [json.Marshal] of a state. *)
Definition coerceState (s : secretState) : secretState :=
  {| Algorithm := toValidUTF8 (Algorithm s); Data := toValidUTF8 (Data s) |}.

(** ** Byte slices *)

#[global] Instance byte_eq_decision : EqDecision byte := Byte.byte_eq_dec.

(** [b[:n]].  A slice is modelled by its contents, with capacity equal to
    length, so slicing beyond the length is the run-time panic.  Go slices
    up to the capacity: a slice that [encoding/json] decoded from base64 can
    have up to two bytes of capacity past its length, and [b[:n]] within
    them gives the contents followed by zero bytes instead of the panic.
    Nothing below rests on what slicing past the length does: the
    statements about the nonce take one of at least [deoxysii_NonceSize]
    bytes. *)
Definition slice_to (b : list byte) (n : nat) : outcome (list byte) :=
  if (n <=? length b)%nat then Ok (take n b)
  else Panic "slice bounds out of range".

(** ** Programs over the outside world

    [io W A] is a Go call that may read and change the world [W] (the random
    source, the wallet directory) and ends in an [outcome]. *)
Definition io (W A : Type) : Type := W -> outcome A * W.

Definition io_ret {W A} (a : A) : io W A := fun w => (Ok a, w).
Definition io_bind {W A B} (m : io W A) (f : A -> io W B) : io W B :=
  fun w =>
    match m w with
    | (Ok a, w') => f a w'
    | (Err e, w') => (Err e, w')
    | (Panic msg, w') => (Panic msg, w')
    end.
(** A call that does not touch the world. *)
Definition io_pure {W A} (o : outcome A) : io W A := fun w => (o, w).
(** [if err != nil { return nil, fmt.Errorf(format, err) }] *)
Definition wrap_err {A} (format : string) (o : outcome A) : outcome A :=
  match o with
  | Err e => Err (Errorw format [] e)
  | _ => o
  end.
Definition io_wrap_err {W A} (format : string) (m : io W A) : io W A :=
  fun w => let '(o, w') := m w in (wrap_err format o, w').

Declare Scope io_scope.
Delimit Scope io_scope with io.
Notation "x <- m ;; k" := (io_bind m (fun x => k))
  (at level 100, m at next level, right associativity) : io_scope.

(** ** Interfaces of the imported packages *)

(** [crypto/rand]: [rand_Read n] is [rand.Read] on a buffer of [n] bytes. *)
Class RandSource (R : Type) : Type :=
  rand_Read : nat -> io R (list byte).

Class RandLaws (R : Type) `{RandSource R} : Prop := {
  rand_Read_length : forall n r bs r',
    rand_Read n r = (Ok bs, r') -> length bs = n;
}.

(** [golang.org/x/crypto/argon2]: the Argon2id function proper. *)
Class Argon2id : Type :=
  argon2_hash : list byte -> list byte -> N -> N -> N -> nat -> list byte.

Class Argon2Laws `{Argon2id} : Prop := {
  argon2_hash_length : forall pw salt t m p keyLen,
    length (argon2_hash pw salt t m p keyLen) = keyLen;
}.

(** [argon2.IDKey]; it panics on a zero time or parallelism parameter. *)
Definition argon2_IDKey `{Argon2id} (password salt : list byte)
    (time memory threads : N) (keyLen : nat) : outcome (list byte) :=
  if (time <? 1)%N then Panic "argon2: number of rounds too small"
  else if (threads <? 1)%N then Panic "argon2: parallelism degree too low"
  else Ok (argon2_hash password salt time memory threads keyLen).

(** [github.com/oasisprotocol/deoxysii]: Deoxys-II-256-128 on a key, a nonce
    of [deoxysii_NonceSize] bytes, a text and associated data.  What the
    package does with a nonce of another size is left out: [Seal] and
    [Open] below slice the nonce to that size before every call. *)
Class DeoxysII : Type := {
  deoxys_seal : list byte -> list byte -> list byte -> list byte -> list byte;
  deoxys_open : list byte -> list byte -> list byte -> list byte -> option (list byte);
}.

Definition deoxysii_KeySize : nat := 32.
Definition deoxysii_NonceSize : nat := 15.

(** Opening what was sealed under the same key, nonce and associated data
    gives the text back. *)
Class DeoxysLaws `{DeoxysII} : Prop := {
  deoxys_open_seal : forall k n pt ad,
    deoxys_open k n (deoxys_seal k n pt ad) ad = Some pt;
}.

(** The [cipher.AEAD] value that [deoxysii.New] returns. *)
Record aeadInstance : Type := mkAead { aead_key : list byte }.

Definition deoxysii_New (key : list byte) : outcome aeadInstance :=
  if (length key =? deoxysii_KeySize)%nat then Ok (mkAead key)
  else Err ErrDeoxysKeySize.

Definition aead_NonceSize (a : aeadInstance) : nat := deoxysii_NonceSize.

Definition aead_Seal `{DeoxysII} (a : aeadInstance)
    (dst nonce plaintext ad : list byte) : list byte :=
  dst ++ deoxys_seal (aead_key a) nonce plaintext ad.

Definition aead_Open `{DeoxysII} (a : aeadInstance)
    (dst nonce ciphertext ad : list byte) : outcome (list byte) :=
  match deoxys_open (aead_key a) nonce ciphertext ad with
  | Some pt => Ok (dst ++ pt)
  | None => Err ErrDeoxysOpen
  end.

(** [encoding/json] on the two struct types of the package. *)
Class JSONCodec : Type := {
  json_Marshal_state : secretState -> outcome (list byte);
  json_Unmarshal_state : list byte -> outcome secretState;
  json_Marshal_envelope : secretStateEnvelope -> outcome (list byte);
  json_Unmarshal_envelope : list byte -> outcome secretStateEnvelope;
}.

(** Marshalling a state never fails, and reading the result back gives the
    state with both strings coerced to valid UTF-8.  The errors of
    [json.Unmarshal] are the package's own. *)
Class JSONLaws `{JSONCodec} : Prop := {
  json_state_roundtrip : forall s, exists bs,
    json_Marshal_state s = Ok bs /\
    json_Unmarshal_state bs = Ok (coerceState s);
  json_Unmarshal_state_error : forall bs e,
    json_Unmarshal_state bs = Err e -> exists msg, e = ErrJSON msg;
}.

(** The descriptor that [Seal] builds around a salt: one pass, 64 MiB
    (the memory parameter counts KiB), four lanes. *)
Definition defaultKDF (salt : list byte) : kdfArgon2 :=
  {| Salt := salt; Time := 1; Memory := 64 * 1024; Threads := 4 |}.

(** ** Sealing and opening the secret state *)

Section Envelope.
Context `{Argon2id, DeoxysII, JSONCodec}.

Definition kdfArgon2_deriveKey (k : kdfArgon2) (passphrase : string)
    : outcome (list byte) :=
  argon2_IDKey (list_byte_of_string passphrase) (Salt k) (Time k)
               (Memory k) (Threads k) stateKeySize.

Definition deriveKey (e : secretStateEnvelope) (passphrase : string)
    : outcome (list byte) :=
  match Argon2 (env_KDF e) with
  | Some k => kdfArgon2_deriveKey k passphrase
  | None => Err (Errorf "unsupported key derivation algorithm" [])
  end.

Definition Seal {R} `{RandSource R} (s : secretState) (passphrase : string)
    : io R secretStateEnvelope :=
  (nonce <- rand_Read stateNonceSize ;;
   salt <- rand_Read kdfSaltSize ;;
   let envelope :=
     {| env_KDF := {| Argon2 := Some {| Salt := salt; Time := 1;
                                        Memory := 64 * 1024; Threads := 4 |} |};
        env_Nonce := nonce;
        env_Data := [] |} in
   key <- io_pure (deriveKey envelope passphrase) ;;
   data <- io_pure (json_Marshal_state s) ;;
   aead <- io_pure (deoxysii_New key) ;;
   prefix <- io_pure (slice_to (env_Nonce envelope) (aead_NonceSize aead)) ;;
   io_ret {| env_KDF := env_KDF envelope;
             env_Nonce := env_Nonce envelope;
             env_Data := aead_Seal aead [] prefix data [] |})%io.

Definition Open (e : secretStateEnvelope) (passphrase : string)
    : outcome secretState :=
  key ← deriveKey e passphrase;
  aead ← deoxysii_New key;
  nonce ← slice_to (env_Nonce e) (aead_NonceSize aead);
  pt ← aead_Open aead [] nonce (env_Data e) [];
  json_Unmarshal_state pt.
End Envelope.

(** ** The wallet package and the signer constructors *)

(** The algorithm and import-kind tags of package [wallet].  Their values
    are strings declared outside this file; the [switch] statements below
    list them as distinct [case] constants. *)
Class WalletTags : Type := {
  AlgorithmEd25519Adr8 : string;
  AlgorithmEd25519Raw : string;
  AlgorithmSecp256k1Bip44 : string;
  AlgorithmSecp256k1Raw : string;
  ImportKindMnemonic : string;
  ImportKindPrivateKey : string;
}.

Class WalletTagsLaws `{WalletTags} : Prop := {
  algorithms_distinct :
    NoDup [AlgorithmEd25519Adr8; AlgorithmEd25519Raw;
           AlgorithmSecp256k1Bip44; AlgorithmSecp256k1Raw];
  import_kinds_distinct : ImportKindMnemonic <> ImportKindPrivateKey;
}.

(** [types.SignatureAddressSpec] over the two public-key types;
    [SpecEmpty] is the zero struct. *)
Inductive types_SignatureAddressSpec (EdPK SecpPK : Type) : Type :=
  | SpecEd25519 (pk : EdPK)
  | SpecSecp256k1Eth (pk : SecpPK)
  | SpecEmpty.
Arguments SpecEd25519 {EdPK SecpPK} pk.
Arguments SpecSecp256k1Eth {EdPK SecpPK} pk.
Arguments SpecEmpty {EdPK SecpPK}.

(** Key material and the functions that build it: [sakg.GetAccountSigner],
    [ed25519rawSigner.unmarshalBase64], [Secp256k1FromMnemonic],
    [Secp256k1FromHex], the [Public] methods and [types.NewAddress]. *)
Class SignerLib : Type := {
  CoreSigner : Type;
  Secp256k1Signer : Type;
  Ed25519PublicKey : Type;
  Secp256k1PublicKey : Type;
  types_Address : Type;
  sakg_GetAccountSigner : string -> string -> N -> outcome CoreSigner;
  ed25519raw_unmarshalBase64 : string -> outcome CoreSigner;
  Secp256k1FromMnemonic : string -> N -> outcome Secp256k1Signer;
  Secp256k1FromHex : string -> outcome Secp256k1Signer;
  ed25519_Public : CoreSigner -> Ed25519PublicKey;
  secp256k1_Public : Secp256k1Signer -> Secp256k1PublicKey;
  types_NewAddress :
    types_SignatureAddressSpec Ed25519PublicKey Secp256k1PublicKey ->
    outcome types_Address;
}.

(** A [signature.Signer] interface value by its dynamic type: the result
    of [ed25519.WrapSigner], which has an [Unwrap] method, or a Secp256k1
    signer, which has none. *)
Inductive signature_Signer `{SignerLib} : Type :=
  | Ed25519Wrapped (inner : CoreSigner)
  | Secp256k1 (s : Secp256k1Signer).

Inductive signature_PublicKey `{SignerLib} : Type :=
  | PubEd25519 (pk : Ed25519PublicKey)
  | PubSecp256k1 (pk : Secp256k1PublicKey).

Definition ed25519_WrapSigner `{SignerLib} (s : CoreSigner)
    : signature_Signer :=
  Ed25519Wrapped s.

Definition Signer_Public `{SignerLib} (s : signature_Signer)
    : signature_PublicKey :=
  match s with
  | Ed25519Wrapped inner => PubEd25519 (ed25519_Public inner)
  | Secp256k1 k => PubSecp256k1 (secp256k1_Public k)
  end.

(** The struct holds pointers to a configuration and a state that nothing
    writes to after construction, so they are held by value. *)
Record fileWallet `{SignerLib} : Type := mkFileWallet {
  w_cfg : walletConfig;
  w_state : secretState;
  w_signer : signature_Signer;
}.

Section Wallet.
Context `{WalletTags, SignerLib}.

Definition newWallet (state : secretState) (cfg : walletConfig)
    : outcome fileWallet :=
  if decide (Algorithm state = AlgorithmEd25519Adr8) then
    signer ← wrap_err "failed to derive signer: %w"
               (sakg_GetAccountSigner (Data state) "" (cfg_Number cfg));
    Ok (mkFileWallet _ cfg state (ed25519_WrapSigner signer))
  else if decide (Algorithm state = AlgorithmEd25519Raw) then
    signer ← wrap_err "failed to initialize signer: %w"
               (ed25519raw_unmarshalBase64 (Data state));
    Ok (mkFileWallet _ cfg state (ed25519_WrapSigner signer))
  else if decide (Algorithm state = AlgorithmSecp256k1Bip44) then
    signer ← wrap_err "failed to initialize signer: %w"
               (Secp256k1FromMnemonic (Data state) (cfg_Number cfg));
    Ok (mkFileWallet _ cfg state (Secp256k1 signer))
  else if decide (Algorithm state = AlgorithmSecp256k1Raw) then
    signer ← wrap_err "failed to initialize signer: %w"
               (Secp256k1FromHex (Data state));
    Ok (mkFileWallet _ cfg state (Secp256k1 signer))
  else
    Err (Errorf "algorithm '%s' not supported" [Algorithm state]).

(** The type assertion to an interface with [Unwrap]; [None] is [nil]. *)
Definition ConsensusSigner (w : fileWallet) : option CoreSigner :=
  match w_signer w with
  | Ed25519Wrapped inner => Some inner
  | Secp256k1 _ => None
  end.

Definition Signer (w : fileWallet) : signature_Signer := w_signer w.

(** The two type assertions on the public key panic when the signer is
    of the other family. *)
Definition SignatureAddressSpec (w : fileWallet)
    : outcome (types_SignatureAddressSpec Ed25519PublicKey Secp256k1PublicKey) :=
  let alg := cfg_Algorithm (w_cfg w) in
  if decide (alg = AlgorithmEd25519Adr8 \/ alg = AlgorithmEd25519Raw) then
    match Signer_Public (Signer w) with
    | PubEd25519 pk => Ok (SpecEd25519 pk)
    | PubSecp256k1 _ => Panic "interface conversion"
    end
  else if decide (alg = AlgorithmSecp256k1Bip44 \/ alg = AlgorithmSecp256k1Raw) then
    match Signer_Public (Signer w) with
    | PubSecp256k1 pk => Ok (SpecSecp256k1Eth pk)
    | PubEd25519 _ => Panic "interface conversion"
    end
  else Ok SpecEmpty.

Definition Address (w : fileWallet) : outcome types_Address :=
  spec ← SignatureAddressSpec w;
  types_NewAddress spec.

Definition UnsafeExport (w : fileWallet) : string := Data (w_state w).
End Wallet.

(** ** Configuration, the wallet directory and the factory *)

(** A value of a raw configuration map ([interface{}]). *)
Inductive iface : Type :=
  | IString (s : string)
  | IUint32 (n : N)
  | IOther.

(** [mapstructure.Decode] into a [walletConfig]. *)
Class Mapstructure : Type :=
  mapstructure_Decode : gmap string iface -> outcome walletConfig.

(** [go-bip39]: fresh entropy of a number of bits, and its mnemonic. *)
Class Bip39 (R : Type) : Type := {
  bip39_NewEntropy : nat -> io R (list byte);
  bip39_NewMnemonic : list byte -> outcome string;
}.

(** [config.Directory] and [filepath.Join]. *)
Class Paths : Type := {
  config_Directory : string;
  filepath_Join : string -> string -> string;
}.

(** The files of the machine by path, and the paths that cannot be
    written. *)
Record FS : Type := mkFS {
  fs_files : gmap string (list byte);
  fs_readonly : gset string;
}.

(** [ioutil.WriteFile] opens the file, truncating it, and writes the data.
    The failure modelled is the one of opening a path that cannot be
    written, which leaves the file as it was.  A failure in the middle of
    the write, which leaves the file truncated, is not modelled, and no
    theorem below is about what the file holds after a failed write. *)
Definition ioutil_WriteFile (name : string) (data : list byte) (perm : N)
    : io FS unit :=
  fun fs =>
    if decide (name ∈ fs_readonly fs) then (Err (ErrIO "permission denied"), fs)
    else (Ok tt, {| fs_files := <[name := data]> (fs_files fs);
                    fs_readonly := fs_readonly fs |}).

Definition ioutil_ReadFile (name : string) : io FS (list byte) :=
  fun fs =>
    match fs_files fs !! name with
    | Some data => (Ok data, fs)
    | None => (Err (ErrIO "no such file or directory"), fs)
    end.

(** The world of the factory: the random source and the files. *)
Record World (R : Type) : Type := mkWorld {
  world_rand : R;
  world_fs : FS;
}.
Arguments mkWorld {R} _ _.
Arguments world_rand {R} _.
Arguments world_fs {R} _.

Definition with_rand {R A} (m : io R A) : io (World R) A :=
  fun w => let '(o, r') := m (world_rand w) in (o, mkWorld r' (world_fs w)).
Definition with_fs {R A} (m : io FS A) : io (World R) A :=
  fun w => let '(o, fs') := m (world_fs w) in (o, mkWorld (world_rand w) fs').

(** [wallet.ImportSource] *)
Record ImportSource : Type := mkImportSource {
  src_Kind : string;
  src_Data : string;
}.

Section Factory.
Context `{WalletTags, SignerLib, Argon2id, DeoxysII, JSONCodec,
          Mapstructure, Paths}.
Context {R : Type} `{RandSource R, Bip39 R}.

Definition getWalletFilename (name : string) : string :=
  filepath_Join config_Directory (name +:+ ".wallet").

(** [rawCfg] is a map; [None] is the nil map. *)
Definition unmarshalConfig (raw : option (gmap string iface))
    : outcome walletConfig :=
  match raw with
  | None => Err (Errorf "missing configuration" [])
  | Some m => mapstructure_Decode m
  end.

Definition HasConsensusSigner (rawCfg : option (gmap string iface))
    : outcome bool :=
  match unmarshalConfig rawCfg with
  | Ok cfg =>
    if decide (cfg_Algorithm cfg = AlgorithmEd25519Raw \/
               cfg_Algorithm cfg = AlgorithmEd25519Adr8)
    then Ok true else Ok false
  | Err _ => Ok false
  | Panic msg => Panic msg
  end.

Definition Create (name passphrase : string)
    (rawCfg : option (gmap string iface)) : io (World R) fileWallet :=
  (cfg <- io_pure (unmarshalConfig rawCfg) ;;
   entropy <- with_rand (bip39_NewEntropy 256) ;;
   mnemonic <- io_pure (bip39_NewMnemonic entropy) ;;
   let state := {| Algorithm := cfg_Algorithm cfg; Data := mnemonic |} in
   envelope <- io_wrap_err "failed to seal state: %w"
                 (with_rand (Seal state passphrase)) ;;
   raw <- io_pure (wrap_err "failed to marshal envelope: %w"
                     (json_Marshal_envelope envelope)) ;;
   _ <- io_wrap_err "failed to save state: %w"
          (with_fs (ioutil_WriteFile (getWalletFilename name) raw 384)) ;;
   io_pure (newWallet state cfg))%io.

Definition Load (name passphrase : string)
    (rawCfg : option (gmap string iface)) : io (World R) fileWallet :=
  (cfg <- io_pure (unmarshalConfig rawCfg) ;;
   raw <- io_wrap_err "failed to load wallet state: %w"
            (with_fs (ioutil_ReadFile (getWalletFilename name))) ;;
   envelope <- io_pure (wrap_err "failed to load wallet state: %w"
                          (json_Unmarshal_envelope raw)) ;;
   state <- io_pure
              match Open envelope passphrase with
              | Err _ => Err (Errorf
                  "failed to open wallet state (maybe incorrect passphrase?)" [])
              | o => o
              end ;;
   io_pure (newWallet state cfg))%io.

(** The [switch] on the import kind and the algorithm. *)
Definition checkImport (cfg : walletConfig) (src : ImportSource)
    : outcome unit :=
  let alg := cfg_Algorithm cfg in
  if decide (src_Kind src = ImportKindMnemonic) then
    if decide (alg = AlgorithmEd25519Adr8 \/ alg = AlgorithmSecp256k1Bip44)
    then Ok tt
    else Err (Errorf "algorithm '%s' does not support import from mnemonic"
                     [alg])
  else if decide (src_Kind src = ImportKindPrivateKey) then
    if decide (alg = AlgorithmEd25519Raw \/ alg = AlgorithmSecp256k1Raw)
    then Ok tt
    else Err (Errorf "algorithm '%s' does not support import from private key"
                     [alg])
  else Err (Errorf "unsupported import kind: %s" [src_Kind src]).

Definition Import (name passphrase : string)
    (rawCfg : option (gmap string iface)) (src : ImportSource)
    : io (World R) fileWallet :=
  (cfg <- io_pure (unmarshalConfig rawCfg) ;;
   _ <- io_pure (checkImport cfg src) ;;
   let state := {| Algorithm := cfg_Algorithm cfg; Data := src_Data src |} in
   wallet <- io_pure (newWallet state cfg) ;;
   envelope <- io_wrap_err "failed to seal state: %w"
                 (with_rand (Seal state passphrase)) ;;
   raw <- io_pure (wrap_err "failed to marshal envelope: %w"
                     (json_Marshal_envelope envelope)) ;;
   _ <- io_wrap_err "failed to save state: %w"
          (with_fs (ioutil_WriteFile (getWalletFilename name) raw 384)) ;;
   io_ret wallet)%io.
End Factory.

(** ** A reference implementation of the interfaces

    Small executable stand-ins for the imported packages.  They are not the
    real primitives; they show that the laws assumed of the interfaces can
    all hold together, and they let the factory run on concrete inputs. *)
Module Ref.

(** The random source is the tape of bytes it will hand out; it fails
    when the tape runs short. *)
Definition rand : RandSource (list byte) := fun n tape =>
  if (n <=? length tape)%nat then (Ok (take n tape), drop n tape)
  else (Err (ErrRand "entropy source exhausted"), tape).

Definition argon2 : Argon2id := fun pw salt _ _ _ keyLen =>
  take keyLen (pw ++ salt ++ replicate keyLen x00).

Definition bytes_eqb (a b : list byte) : bool :=
  bool_decide (a = b).

(** Key, nonce and the text twice. *)
Definition seal (k n pt ad : list byte) : list byte := k ++ n ++ pt ++ pt.

Definition open (k n c ad : list byte) : option (list byte) :=
  let body := drop (length k + length n) c in
  let pt := take (length body / 2) body in
  if bytes_eqb c (seal k n pt ad) then Some pt else None.

Definition deoxys : DeoxysII :=
  {| deoxys_seal := seal; deoxys_open := open |}.

(** A length in unary, a zero byte, then the bytes. *)
Definition put (b : list byte) : list byte :=
  replicate (length b) x01 ++ x00 :: b.

Fixpoint count (l : list byte) : option (nat * list byte) :=
  match l with
  | x00 :: r => Some (0, r)
  | x01 :: r => match count r with
                | Some (n, r') => Some (S n, r')
                | None => None
                end
  | _ => None
  end.

Definition get (l : list byte) : option (list byte * list byte) :=
  match count l with
  | Some (n, r) =>
    if (n <=? length r)%nat then Some (take n r, drop n r) else None
  | None => None
  end.

Definition putN (n : N) : list byte :=
  put (replicate (N.to_nat n) x02).
Definition getN (l : list byte) : option (N * list byte) :=
  match get l with
  | Some (b, r) => Some (N.of_nat (length b), r)
  | None => None
  end.

Definition marshal_state (s : secretState) : list byte :=
  put (list_byte_of_string (toValidUTF8 (Algorithm s))) ++
  put (list_byte_of_string (toValidUTF8 (Data s))).

Definition unmarshal_state (l : list byte) : outcome secretState :=
  match get l with
  | Some (a, r) =>
    match get r with
    | Some (d, []) => Ok {| Algorithm := string_of_list_byte a;
                            Data := string_of_list_byte d |}
    | _ => Err (ErrJSON "unexpected end of JSON input")
    end
  | None => Err (ErrJSON "invalid character")
  end.

Definition marshal_envelope (e : secretStateEnvelope) : list byte :=
  match Argon2 (env_KDF e) with
  | Some k => x01 :: put (Salt k) ++ putN (Time k) ++ putN (Memory k / 1024)
                  ++ putN (Threads k)
  | None => [x00]
  end ++ put (env_Nonce e) ++ put (env_Data e).

Definition unmarshal_kdf (l : list byte)
    : option (secretStateKDF * list byte) :=
  match l with
  | x00 :: r => Some ({| Argon2 := None |}, r)
  | x01 :: r =>
    '(salt, r) ← get r;
    '(t, r) ← getN r;
    '(m, r) ← getN r;
    '(p, r) ← getN r;
    Some ({| Argon2 := Some {| Salt := salt; Time := t;
                               Memory := m * 1024; Threads := p |} |}, r)
  | _ => None
  end.

Definition unmarshal_envelope (l : list byte) : outcome secretStateEnvelope :=
  match unmarshal_kdf l with
  | Some (kdf, r) =>
    match get r with
    | Some (nonce, r) =>
      match get r with
      | Some (data, []) =>
        Ok {| env_KDF := kdf; env_Nonce := nonce; env_Data := data |}
      | _ => Err (ErrJSON "unexpected end of JSON input")
      end
    | None => Err (ErrJSON "unexpected end of JSON input")
    end
  | None => Err (ErrJSON "invalid character")
  end.

Definition json : JSONCodec :=
  {| json_Marshal_state := fun s => Ok (marshal_state s);
     json_Unmarshal_state := unmarshal_state;
     json_Marshal_envelope := fun e => Ok (marshal_envelope e);
     json_Unmarshal_envelope := unmarshal_envelope |}.

Definition tags : WalletTags :=
  {| AlgorithmEd25519Adr8 := "ed25519-adr8";
     AlgorithmEd25519Raw := "ed25519-raw";
     AlgorithmSecp256k1Bip44 := "secp256k1-bip44";
     AlgorithmSecp256k1Raw := "secp256k1-raw";
     ImportKindMnemonic := "mnemonic";
     ImportKindPrivateKey := "private key" |}.

Fixpoint has_space (s : string) : bool :=
  match s with
  | EmptyString => false
  | String c r => if decide (c = " "%char) then true else has_space r
  end.

(** Keys are the text they were built from.  A mnemonic is any text with
    a space in it; an encoded raw key is any non-empty text without. *)
Definition from_mnemonic (tag data : string) (number : N)
    : outcome string :=
  if has_space data
  then Ok (tag +:+ ":" +:+ data +:+ ":" +:+ string_of_list_byte (putN number))
  else Err (ErrSigner "invalid mnemonic").

Definition from_raw (tag data : string) : outcome string :=
  if has_space data || bool_decide (data = "")
  then Err (ErrSigner "malformed private key")
  else Ok (tag +:+ ":" +:+ data).

Definition signers : SignerLib :=
  {| CoreSigner := string;
     Secp256k1Signer := string;
     Ed25519PublicKey := string;
     Secp256k1PublicKey := string;
     types_Address := string;
     sakg_GetAccountSigner := fun m _ n => from_mnemonic "ed25519" m n;
     ed25519raw_unmarshalBase64 := from_raw "ed25519";
     Secp256k1FromMnemonic := from_mnemonic "secp256k1";
     Secp256k1FromHex := from_raw "secp256k1";
     ed25519_Public := fun s => "pub:" +:+ s;
     secp256k1_Public := fun s => "pub:" +:+ s;
     types_NewAddress := fun spec =>
       match spec with
       | SpecEd25519 pk => Ok ("oasis1:" +:+ pk)
       | SpecSecp256k1Eth pk => Ok ("0x:" +:+ pk)
       | SpecEmpty => Panic "address: unsupported public key type"
       end |}.

Definition decode : Mapstructure := fun m =>
  match m !! "algorithm", m !! "number" with
  | (None | Some (IString _)) as a, (None | Some (IUint32 _)) as n =>
    Ok {| cfg_Algorithm := match a with Some (IString s) => s | _ => "" end;
          cfg_Number := match n with Some (IUint32 k) => k | _ => 0%N end |}
  | _, _ => Err (ErrMapstructure "unconvertible type")
  end.

Definition bip39 : Bip39 (list byte) :=
  {| bip39_NewEntropy := fun bits => rand (bits / 8)%nat;
     bip39_NewMnemonic := fun entropy =>
       Ok (String.concat " "
             (map (fun b => if N.even (Byte.to_N b) then "zoo" else "art")
                  entropy)) |}.

Definition paths : Paths :=
  {| config_Directory := "/home/user/.config/oasis";
     filepath_Join := fun a b => a +:+ "/" +:+ b |}.

(** Sample inputs. *)
Definition tape (n : nat) : list byte :=
  (fun i => default x00 (Byte.of_nat (i mod 256))) <$> seq 0 n.

Definition sample_state : secretState :=
  {| Algorithm := "ed25519-raw"; Data := "c2VjcmV0IGtleSBtYXRlcmlhbA==" |}.

(** A state whose data is the single byte [FF], which is not UTF-8. *)
Definition binary_state : secretState :=
  {| Algorithm := "ed25519-raw"; Data := String (ascii_of_N 255) "" |}.

(** An envelope whose sealed text is authentic but is not a marshalled
    state. *)
Definition garbled : secretStateEnvelope :=
  let salt := drop 32 (tape 64) in
  let nonce := take 32 (tape 64) in
  {| env_KDF := {| Argon2 := Some (defaultKDF salt) |};
     env_Nonce := nonce;
     env_Data :=
       seal (argon2 (list_byte_of_string "hunter2") salt 1%N (64 * 1024)%N 4%N 32)
            (take deoxysii_NonceSize nonce) [x05] [] |}.

Definition raw_config (algorithm : string) (number : N)
    : option (gmap string iface) :=
  Some (<["algorithm" := IString algorithm]>
          (<["number" := IUint32 number]> ∅)).

Definition empty_world (n : nat) : World (list byte) :=
  mkWorld (tape n) {| fs_files := ∅; fs_readonly := ∅ |}.

End Ref.

(** ** The rest of the factory *)

(** [encoding/base64]: [base64.StdEncoding.DecodeString]. *)
Class Base64 : Type :=
  base64_DecodeString : string -> outcome (list byte).

(** The value of a hexadecimal digit ([encoding/hex]). *)
Definition fromHexChar (c : ascii) : option N :=
  let v := byteval c in
  if in_range 48 57 c then Some (v - 48)%N
  else if in_range 97 102 c then Some (v - 97 + 10)%N
  else if in_range 65 70 c then Some (v - 65 + 10)%N
  else None.

Definition hex_InvalidByteError (c : ascii) : error :=
  Errorf "encoding/hex: invalid byte: %#U" [String c ""].
Definition hex_ErrLength : error :=
  Errorf "encoding/hex: odd length hex string" [].

(** [hex.DecodeString]: two digits a byte, left to right; a bad digit is
    reported before an odd length. *)
Fixpoint hex_DecodeString (s : string) : outcome (list byte) :=
  match s with
  | EmptyString => Ok []
  | String p EmptyString =>
    match fromHexChar p with
    | None => Err (hex_InvalidByteError p)
    | Some _ => Err hex_ErrLength
    end
  | String p (String q r) =>
    match fromHexChar p with
    | None => Err (hex_InvalidByteError p)
    | Some a =>
      match fromHexChar q with
      | None => Err (hex_InvalidByteError q)
      | Some b =>
        rest ← hex_DecodeString r;
        Ok (default x00 (Byte.of_N (a * 16 + b)) :: rest)
      end
    end
  end.

(** [strings.TrimPrefix] *)
Definition strings_TrimPrefix (s pre : string) : string :=
  if String.prefix pre s
  then String.substring (String.length pre)
                        (String.length s - String.length pre) s
  else s.

(** [fmt.Sprintf("%d", n)] on an unsigned integer. *)
Definition fmt_d (n : N) : string := NilEmpty.string_of_uint (N.to_uint n).

(** [survey.Prompt] values and [survey.Question]. *)
Inductive survey_Prompt : Type :=
  | survey_Select (message : string) (options : list string)
  | survey_Input (message default : string)
  | survey_Multiline (message : string).

Record survey_Question : Type := mkQuestion {
  q_Name : string;
  q_Prompt : survey_Prompt;
}.

(** The answers struct of [GetConfigFromSurvey]. *)
Record surveyAnswers : Type := mkAnswers {
  ans_Algorithm : string;
  ans_Number : N;
}.

(** [survey.Ask] into the answers struct, on a terminal [T]. *)
Class Survey (T : Type) : Type :=
  survey_Ask : list survey_Question -> io T surveyAnswers.

(** A flag of a [pflag.FlagSet] by the type it was declared with. *)
Inductive flagValue : Type :=
  | FlagString (s : string)
  | FlagUint32 (n : N)
  | FlagOther.

Definition cfgAlgorithm : string := "file.algorithm".
Definition cfgNumber : string := "file.number".

(** [FlagSet.GetString] and [FlagSet.GetUint32]: the zero value and an
    error when the flag is missing or of another type. *)
Definition flags_GetString (flags : gmap string flagValue) (name : string)
    : string * option error :=
  match flags !! name with
  | Some (FlagString s) => (s, None)
  | Some _ => ("", Some (Errorf "trying to get %s value of flag of type %s" []))
  | None => ("", Some (Errorf "flag accessed but not defined: %s" [name]))
  end.

Definition flags_GetUint32 (flags : gmap string flagValue) (name : string)
    : N * option error :=
  match flags !! name with
  | Some (FlagUint32 n) => (n, None)
  | Some _ => (0%N, Some (Errorf "trying to get %s value of flag of type %s" []))
  | None => (0%N, Some (Errorf "flag accessed but not defined: %s" [name]))
  end.

(** [os.Remove] and [os.Rename] on the files. *)
Definition os_Remove (name : string) : io FS unit :=
  fun fs =>
    match fs_files fs !! name with
    | None => (Err (ErrIO "no such file or directory"), fs)
    | Some _ =>
      if decide (name ∈ fs_readonly fs)
      then (Err (ErrIO "permission denied"), fs)
      else (Ok tt, {| fs_files := delete name (fs_files fs);
                      fs_readonly := fs_readonly fs |})
    end.

Definition os_Rename (old new : string) : io FS unit :=
  fun fs =>
    match fs_files fs !! old with
    | None => (Err (ErrIO "no such file or directory"), fs)
    | Some data =>
      if decide (old ∈ fs_readonly fs \/ new ∈ fs_readonly fs)
      then (Err (ErrIO "permission denied"), fs)
      else (Ok tt, {| fs_files := <[new := data]> (delete old (fs_files fs));
                      fs_readonly := fs_readonly fs |})
    end.

(** Field values that fit the Go types of an envelope ([uint32], [uint8]). *)
Definition envelope_in_range (e : secretStateEnvelope) : Prop :=
  match Argon2 (env_KDF e) with
  | Some k => (Time k < 2 ^ 32 /\ Memory k < 2 ^ 32 /\ Threads k < 2 ^ 8)%N
  | None => True
  end.

(** Marshalling an envelope never fails and reading the result back gives
    the envelope. *)
Class JSONEnvelopeLaws `{JSONCodec} : Prop := {
  json_envelope_roundtrip : forall e, envelope_in_range e -> exists raw,
    json_Marshal_envelope e = Ok raw /\
    json_Unmarshal_envelope raw = Ok e;
}.

Section FactoryRest.
Context `{WalletTags, Mapstructure, Paths, Base64}.
Context {R T : Type} `{Survey T}.

(** [kind] is a pointer; [None] is nil. *)
Definition SupportedAlgorithmsForImport (kind : option string) : list string :=
  match kind with
  | None => [AlgorithmEd25519Adr8; AlgorithmEd25519Raw;
             AlgorithmSecp256k1Bip44; AlgorithmSecp256k1Raw]
  | Some k =>
    if decide (k = ImportKindMnemonic)
    then [AlgorithmEd25519Adr8; AlgorithmSecp256k1Bip44]
    else if decide (k = ImportKindPrivateKey)
    then [AlgorithmEd25519Raw; AlgorithmSecp256k1Raw]
    else []
  end.

Definition PrettyKind (rawCfg : option (gmap string iface)) : outcome string :=
  match unmarshalConfig rawCfg with
  | Ok cfg =>
    let number :=
      if decide (cfg_Algorithm cfg = AlgorithmEd25519Adr8 \/
                 cfg_Algorithm cfg = AlgorithmSecp256k1Bip44)
      then ":" +:+ fmt_d (cfg_Number cfg) else "" in
    Ok (Kind +:+ " (" +:+ cfg_Algorithm cfg +:+ number +:+ ")")
  | Err _ => Ok ""
  | Panic msg => Panic msg
  end.

Definition GetConfigFromFlags (flags : gmap string flagValue)
    : outcome (option (gmap string iface)) :=
  let cfg : gmap string iface := ∅ in
  let cfg := <["algorithm" := IString (flags_GetString flags cfgAlgorithm).1]> cfg in
  let cfg := <["number" := IUint32 (flags_GetUint32 flags cfgNumber).1]> cfg in
  Ok (Some cfg).

(** The questions that [GetConfigFromSurvey] asks. *)
Definition surveyQuestions (kind : option string) : list survey_Question :=
  let questions :=
    [ {| q_Name := "algorithm";
         q_Prompt := survey_Select "Algorithm:"
                       (SupportedAlgorithmsForImport kind) |} ] in
  if decide (kind = Some ImportKindMnemonic)
  then questions ++ [ {| q_Name := "number";
                         q_Prompt := survey_Input "Key number:" "0" |} ]
  else questions.

Definition GetConfigFromSurvey (kind : option string)
    : io T (option (gmap string iface)) :=
  (answers <- survey_Ask (surveyQuestions kind) ;;
   io_ret (Some (<["algorithm" := IString (ans_Algorithm answers)]>
                   (<["number" := IUint32 (ans_Number answers)]> ∅))))%io.

(** The returned prompt is a pointer; [None] is nil. *)
Definition DataPrompt (kind : string) (rawCfg : option (gmap string iface))
    : outcome (option survey_Prompt) :=
  if decide (kind = ImportKindMnemonic) then
    Ok (Some (survey_Multiline "Mnemonic:"))
  else if decide (kind = ImportKindPrivateKey) then
    match unmarshalConfig rawCfg with
    | Ok cfg =>
      if decide (cfg_Algorithm cfg = AlgorithmEd25519Raw) then
        Ok (Some (survey_Multiline "Private key (base64-encoded):"))
      else if decide (cfg_Algorithm cfg = AlgorithmSecp256k1Raw) then
        Ok (Some (survey_Multiline "Private key (hex-encoded):"))
      else Ok None
    | Err _ => Ok None
    | Panic msg => Panic msg
    end
  else Ok None.

(** [ans.(string)] *)
Definition assert_string (ans : iface) : outcome string :=
  match ans with
  | IString s => Ok s
  | _ => Panic "interface conversion"
  end.

(** The validator that [DataValidator] returns, applied to an answer; [Ok]
    is the nil error. *)
Definition DataValidator (kind : string) (rawCfg : option (gmap string iface))
    (ans : iface) : outcome unit :=
  if decide (kind = ImportKindMnemonic) then Ok tt
  else if decide (kind = ImportKindPrivateKey) then
    match unmarshalConfig rawCfg with
    | Ok cfg =>
      if decide (cfg_Algorithm cfg = AlgorithmEd25519Raw) then
        a ← assert_string ans;
        _ ← wrap_err "private key must be base64-encoded: %w"
              (base64_DecodeString a);
        Ok tt
      else if decide (cfg_Algorithm cfg = AlgorithmSecp256k1Raw) then
        a ← assert_string ans;
        _ ← wrap_err "private key must be hex-encoded: %w"
              (hex_DecodeString (strings_TrimPrefix a "0x"));
        Ok tt
      else Err (Errorf "unsupported algorithm for %s: %s"
                       [ImportKindPrivateKey; cfg_Algorithm cfg])
    | Err _ => Ok tt
    | Panic msg => Panic msg
    end
  else Err (Errorf "unsupported import kind: %s" [kind]).

(** The world after the wallet file of [name] was written with [raw] and
    the random source was left at [r]. *)
Definition written (w : World R) (r : R) (raw : list byte) (name : string)
    : World R :=
  mkWorld r {| fs_files := <[getWalletFilename name := raw]>
                             (fs_files (world_fs w));
               fs_readonly := fs_readonly (world_fs w) |}.

Definition RequiresPassphrase : bool := true.

Definition SupportedImportKinds : list string :=
  [ImportKindMnemonic; ImportKindPrivateKey].

Definition Remove (name : string) (rawCfg : option (gmap string iface))
    : io (World R) unit :=
  with_fs (os_Remove (getWalletFilename name)).

Definition Rename (old new : string) (rawCfg : option (gmap string iface))
    : io (World R) unit :=
  with_fs (os_Rename (getWalletFilename old) (getWalletFilename new)).
End FactoryRest.

(** ** More of the reference implementation *)
Module Ref2.

(** Any text without a space decodes, to its own bytes. *)
Definition base64 : Base64 := fun s =>
  if Ref.has_space s then Err (Errorf "illegal base64 data at input byte" [])
  else Ok (list_byte_of_string s).

(** A number as its decimal digits. *)
Definition putD (n : N) : list byte :=
  Ref.put (list_byte_of_string (fmt_d n)).

Definition getD (l : list byte) : option (N * list byte) :=
  '(b, r) ← Ref.get l;
  d ← NilEmpty.uint_of_string (string_of_list_byte b);
  Some (N.of_uint d, r).

Definition marshal_envelope (e : secretStateEnvelope) : list byte :=
  match Argon2 (env_KDF e) with
  | Some k => x01 :: Ref.put (Salt k) ++ putD (Time k) ++ putD (Memory k)
                  ++ putD (Threads k)
                  ++ Ref.put (env_Nonce e) ++ Ref.put (env_Data e)
  | None => x00 :: Ref.put (env_Nonce e) ++ Ref.put (env_Data e)
  end.

Definition unmarshal_kdf (l : list byte)
    : option (secretStateKDF * list byte) :=
  match l with
  | x00 :: r => Some ({| Argon2 := None |}, r)
  | x01 :: r =>
    '(salt, r) ← Ref.get r;
    '(t, r) ← getD r;
    '(m, r) ← getD r;
    '(p, r) ← getD r;
    Some ({| Argon2 := Some {| Salt := salt; Time := t;
                               Memory := m; Threads := p |} |}, r)
  | _ => None
  end.

Definition unmarshal_envelope (l : list byte) : outcome secretStateEnvelope :=
  match unmarshal_kdf l with
  | Some (kdf, r) =>
    match Ref.get r with
    | Some (nonce, r) =>
      match Ref.get r with
      | Some (data, []) =>
        Ok {| env_KDF := kdf; env_Nonce := nonce; env_Data := data |}
      | _ => Err (ErrJSON "unexpected end of JSON input")
      end
    | None => Err (ErrJSON "unexpected end of JSON input")
    end
  | None => Err (ErrJSON "invalid character")
  end.

(** The codec of [Ref] for states, with an exact one for envelopes. *)
Definition json : JSONCodec :=
  {| json_Marshal_state := fun s => Ok (Ref.marshal_state s);
     json_Unmarshal_state := Ref.unmarshal_state;
     json_Marshal_envelope := fun e => Ok (marshal_envelope e);
     json_Unmarshal_envelope := unmarshal_envelope |}.

(** The terminal is the list of answers the user will give. *)
Definition survey : Survey (list surveyAnswers) := fun _ t =>
  match t with
  | a :: t' => (Ok a, t')
  | [] => (Err (Errorf "interrupt" []), [])
  end.

Definition mnemonic_state : secretState :=
  {| Algorithm := "ed25519-adr8"; Data := "zoo art zoo" |}.

End Ref2.

(** ** Building with cargo ([build/cargo/cargo.go]) *)
Module Cargo.

(** A message of [cargo build --message-format json], as [Build] decodes
    it. *)
Record buildOutput : Type := mkBuildOutput {
  Reason : string;
  PackageID : string;
  Target_Kind : list string;
  Executable : string;
  Message_Rendered : string;
}.

(** What a started process does: the errors of [StdoutPipe], [Start] and
    [Wait], the messages that decode from its standard output before the
    first one that does not, and its standard error. *)
Record process : Type := mkProcess {
  pipe_err : option error;
  start_err : option error;
  outputs : list buildOutput;
  wait_err : option error;
  stderr : string;
}.

(** [exec.Command] on a program and its arguments. *)
Class Exec : Type :=
  exec_Command : string -> list string -> process.

Definition nl : string := String (ascii_of_nat 10) "".

(** The arguments that [Build] passes; [features] is a slice, [None] is
    nil. *)
Definition buildArgs (release : bool) (target : string)
    (features : option (list string)) : list string :=
  let args := ["build"] in
  let args := if release then args ++ ["--release"] else args in
  let args := if decide (target <> "")
              then args ++ ["--target"; target] else args in
  let args := match features with
              | Some fs => args ++ ["--features"; String.concat "," fs]
              | None => args
              end in
  args ++ ["--message-format"; "json"].

(** One turn of the decoding loop, on the executable found so far and the
    text printed so far. *)
Definition buildStep (acc : string * list string) (output : buildOutput)
    : string * list string :=
  let '(executable, printed) := acc in
  if decide (Reason output = "compiler-message") then
    (executable, printed ++ [Message_Rendered output +:+ nl])
  else if decide (Reason output = "compiler-artifact") then
    let printed := printed ++ ["[built] " +:+ PackageID output +:+ nl] in
    if decide (length (Target_Kind output) <> 1 \/
               Target_Kind output !! 0 <> Some "bin")
    then (executable, printed)
    else (Executable output, printed)
  else (executable, printed).

(** [Build]: the outcome and the text printed on standard output. *)
Definition Build `{Exec} (release : bool) (target : string)
    (features : option (list string)) : outcome string * list string :=
  let cmd := exec_Command "cargo" (buildArgs release target features) in
  match pipe_err cmd with
  | Some err =>
    (Err (Errorw "failed to initialize build process: %w" [] err), [])
  | None =>
    match start_err cmd with
    | Some err =>
      (Err (Errorw "failed to start build process: %w" [] err), [])
    | None =>
      let '(executable, printed) :=
        fold_left buildStep (outputs cmd) ("", []) in
      match wait_err cmd with
      | Some err =>
        (Err (Errorw ("build process failed: %w" +:+ nl +:+
                      "Standard error output:" +:+ nl +:+ "%s")
                     [stderr cmd] err), printed)
      | None =>
        if decide (executable = "")
        then (Err (Errorf "no executable generated" []), printed)
        else (Ok executable, printed)
      end
    end
  end.

(** A message that reports a binary. *)
Definition isBinArtifact (output : buildOutput) : Prop :=
  Reason output = "compiler-artifact" /\ Target_Kind output = ["bin"].

#[global] Instance isBinArtifact_dec (output : buildOutput)
  : Decision (isBinArtifact output).
Proof. unfold isBinArtifact. apply _. Defined.

(** The line that [Build] prints for a message, if any. *)
Definition printedLine (output : buildOutput) : option string :=
  if decide (Reason output = "compiler-message")
  then Some (Message_Rendered output +:+ nl)
  else if decide (Reason output = "compiler-artifact")
  then Some ("[built] " +:+ PackageID output +:+ nl)
  else None.

(** A process that ran through with the given messages. *)
Definition ran (msgs : list buildOutput) : Exec := fun _ _ =>
  {| pipe_err := None; start_err := None; outputs := msgs;
     wait_err := None; stderr := "" |}.

Definition sample_outputs : list buildOutput :=
  [ {| Reason := "compiler-artifact"; PackageID := "dep 0.1.0";
       Target_Kind := ["lib"]; Executable := "";
       Message_Rendered := "" |};
    {| Reason := "compiler-message"; PackageID := "app 0.1.0";
       Target_Kind := ["bin"]; Executable := "";
       Message_Rendered := "warning: unused variable" |};
    {| Reason := "compiler-artifact"; PackageID := "app 0.1.0";
       Target_Kind := ["bin"]; Executable := "target/debug/app";
       Message_Rendered := "" |};
    {| Reason := "build-finished"; PackageID := "";
       Target_Kind := []; Executable := "";
       Message_Rendered := "" |} ].

End Cargo.

(** * Properties *)

(** ** Outcomes *)

Lemma bind_Ok_inv {A B} (m : outcome A) (f : A -> outcome B) (b : B) :
  m ≫= f = Ok b -> exists a, m = Ok a /\ f a = Ok b.
Proof. destruct m as [a| |]; cbn; [eauto | discriminate..]. Qed.

Lemma bind_Ok {A B} (m : outcome A) (f : A -> outcome B) (a : A) :
  m = Ok a -> m ≫= f = f a.
Proof. intros ->. reflexivity. Qed.

Lemma slice_to_Ok (b : list byte) (n : nat) :
  n <= length b -> slice_to b n = Ok (take n b).
Proof.
  intros Hn. unfold slice_to.
  destruct (Nat.leb_spec n (length b)); [reflexivity | lia].
Qed.

Lemma deoxysii_New_inv (key : list byte) (a : aeadInstance) :
  deoxysii_New key = Ok a -> a = mkAead key /\ length key = deoxysii_KeySize.
Proof.
  unfold deoxysii_New.
  destruct (Nat.eqb_spec (length key) deoxysii_KeySize); [|discriminate].
  intros [= <-]. auto.
Qed.

Lemma argon2_IDKey_one_four `{Argon2id} (pw salt : list byte) (m : N) (n : nat) :
  argon2_IDKey pw salt 1 m 4 n = Ok (argon2_hash pw salt 1 m 4 n).
Proof. reflexivity. Qed.

(** ** UTF-8 *)

Example utf8_two_bytes : utf8_ValidString (bytes_string [195; 169]%N) = true.
Proof. reflexivity. Qed.
Example utf8_three_bytes : utf8_ValidString (bytes_string [226; 130; 172]%N) = true.
Proof. reflexivity. Qed.
Example utf8_four_bytes :
  utf8_ValidString (bytes_string [240; 159; 152; 128]%N) = true.
Proof. reflexivity. Qed.
Example utf8_lone_byte : utf8_ValidString (bytes_string [255]%N) = false.
Proof. reflexivity. Qed.
Example utf8_overlong : utf8_ValidString (bytes_string [192; 128]%N) = false.
Proof. reflexivity. Qed.
Example utf8_surrogate :
  utf8_ValidString (bytes_string [237; 160; 128]%N) = false.
Proof. reflexivity. Qed.
Example utf8_cut_short : utf8_ValidString (bytes_string [97; 226; 130]%N) = false.
Proof. reflexivity. Qed.
Example toValidUTF8_lone_byte :
  toValidUTF8 (bytes_string [97; 255; 98]%N) =
  bytes_string [97; 239; 191; 189; 98]%N.
Proof. reflexivity. Qed.
Example toValidUTF8_cut_short :
  toValidUTF8 (bytes_string [226; 130]%N) =
  bytes_string [239; 191; 189; 239; 191; 189]%N.
Proof. reflexivity. Qed.

Lemma toValidUTF8_valid_aux (n : nat) : forall s : string,
  String.length s <= n -> utf8_ValidString s = true -> toValidUTF8 s = s.
Proof.
  induction n as [|n IH]; intros s Hn Hv.
  { destruct s; [reflexivity | cbn in Hn; lia]. }
  destruct s as [|c0 r0]; [reflexivity|].
  cbn [String.length] in Hn.
  cbn [utf8_ValidString toValidUTF8] in *.
  destruct (byteval c0 <? 128)%N.
  { f_equal. apply IH; [lia | assumption]. }
  destruct r0 as [|c1 r1]; [discriminate|]. cbn [String.length] in Hn.
  destruct (seq2 c0 c1).
  { do 2 f_equal. apply IH; [lia | assumption]. }
  destruct r1 as [|c2 r2]; [discriminate|]. cbn [String.length] in Hn.
  destruct (seq3 c0 c1 c2).
  { do 3 f_equal. apply IH; [lia | assumption]. }
  destruct r2 as [|c3 r3]; [discriminate|]. cbn [String.length] in Hn.
  destruct (seq4 c0 c1 c2 c3); [|discriminate].
  do 4 f_equal. apply IH; [lia | assumption].
Qed.

Lemma toValidUTF8_valid (s : string) :
  utf8_ValidString s = true -> toValidUTF8 s = s.
Proof. apply (toValidUTF8_valid_aux (String.length s)). lia. Qed.

Lemma utf8_ValidString_replacementChar (s : string) :
  utf8_ValidString (replacementChar s) = utf8_ValidString s.
Proof. reflexivity. Qed.

Lemma toValidUTF8_is_valid_aux (n : nat) : forall s : string,
  String.length s <= n -> utf8_ValidString (toValidUTF8 s) = true.
Proof.
  induction n as [|n IH]; intros s Hn.
  { destruct s; [reflexivity | cbn in Hn; lia]. }
  destruct s as [|c0 r0]; [reflexivity|].
  cbn [String.length] in Hn.
  assert (Hr0 : utf8_ValidString (replacementChar (toValidUTF8 r0)) = true).
  { rewrite utf8_ValidString_replacementChar. apply IH. lia. }
  cbn [toValidUTF8].
  destruct (byteval c0 <? 128)%N eqn:E1.
  { cbn [utf8_ValidString]. rewrite E1. apply IH. lia. }
  destruct r0 as [|c1 r1]; [exact Hr0|]. cbn [String.length] in Hn.
  destruct (seq2 c0 c1) eqn:E2.
  { cbn [utf8_ValidString]. rewrite E1, E2. apply IH. lia. }
  destruct r1 as [|c2 r2]; [exact Hr0|]. cbn [String.length] in Hn.
  destruct (seq3 c0 c1 c2) eqn:E3.
  { cbn [utf8_ValidString]. rewrite E1, E2, E3. apply IH. lia. }
  destruct r2 as [|c3 r3]; [exact Hr0|]. cbn [String.length] in Hn.
  destruct (seq4 c0 c1 c2 c3) eqn:E4; [|exact Hr0].
  cbn [utf8_ValidString]. rewrite E1, E2, E3, E4. apply IH. lia.
Qed.

Lemma toValidUTF8_is_valid (s : string) :
  utf8_ValidString (toValidUTF8 s) = true.
Proof. apply (toValidUTF8_is_valid_aux (String.length s)). lia. Qed.

Lemma coerceState_valid (s : secretState) :
  utf8_ValidString (Algorithm s) = true ->
  utf8_ValidString (Data s) = true ->
  coerceState s = s.
Proof.
  intros Ha Hd. destruct s as [a d]. unfold coerceState. cbn in *.
  by rewrite !toValidUTF8_valid.
Qed.

(** ** Seal and Open *)

Section EnvelopeFacts.
Context `{Argon2id, DeoxysII, JSONCodec}.
Context {R : Type} `{RandSource R}.

Lemma Seal_inv s p (r r' : R) e :
  Seal s p r = (Ok e, r') ->
  exists nonce salt r1 key data,
    rand_Read stateNonceSize r = (Ok nonce, r1) /\
    rand_Read kdfSaltSize r1 = (Ok salt, r') /\
    argon2_IDKey (list_byte_of_string p) salt 1 (64 * 1024) 4 stateKeySize
      = Ok key /\
    json_Marshal_state s = Ok data /\
    length key = deoxysii_KeySize /\
    deoxysii_NonceSize <= length nonce /\
    e = {| env_KDF := {| Argon2 := Some (defaultKDF salt) |};
           env_Nonce := nonce;
           env_Data := deoxys_seal key (take deoxysii_NonceSize nonce) data [] |}.
Proof.
  unfold Seal, io_bind, io_pure, io_ret. intros Hs.
  destruct (rand_Read stateNonceSize r) as [[nonce| |] r1] eqn:Hn;
    [|discriminate..].
  destruct (rand_Read kdfSaltSize r1) as [[salt| |] r2] eqn:Hsalt;
    [|discriminate..].
  destruct (deriveKey _ p) as [key| |] eqn:Hk; [|discriminate..].
  destruct (json_Marshal_state s) as [data| |] eqn:Hd; [|discriminate..].
  destruct (deoxysii_New key) as [aead| |] eqn:Ha; [|discriminate..].
  apply deoxysii_New_inv in Ha as [-> Hlen].
  unfold slice_to, aead_NonceSize in Hs. cbn [env_Nonce env_KDF] in Hs.
  destruct (Nat.leb_spec deoxysii_NonceSize (length nonce)); [|discriminate].
  injection Hs as <- <-.
  exists nonce, salt, r1, key, data. repeat split; assumption.
Qed.

(** What [Open] does once the key is known and the nonce is long enough. *)
Lemma Open_with_key e p key :
  deriveKey e p = Ok key ->
  length key = deoxysii_KeySize ->
  deoxysii_NonceSize <= length (env_Nonce e) ->
  Open e p =
    match deoxys_open key (take deoxysii_NonceSize (env_Nonce e))
                      (env_Data e) [] with
    | Some pt => json_Unmarshal_state pt
    | None => Err ErrDeoxysOpen
    end.
Proof.
  intros Hk Hlen Hn. unfold Open. rewrite (bind_Ok _ _ _ Hk).
  unfold deoxysii_New. rewrite Hlen, Nat.eqb_refl. cbn [mbind outcome_bind].
  unfold aead_NonceSize. rewrite (slice_to_Ok _ _ Hn). cbn [mbind outcome_bind].
  unfold aead_Open. cbn [aead_key].
  destruct deoxys_open; reflexivity.
Qed.

Lemma Seal_Open_coerced `{!DeoxysLaws, !JSONLaws} s p (r r' : R) e :
  Seal s p r = (Ok e, r') -> Open e p = Ok (coerceState s).
Proof.
  intros (nonce & salt & r1 & key & data & _ & _ & Hk & Hd & Hlen & Hn & ->)
    %Seal_inv.
  rewrite (Open_with_key _ _ key); [|assumption..].
  cbn [env_Nonce env_Data]. rewrite deoxys_open_seal.
  destruct (json_state_roundtrip s) as (bs & Hm & Hu). congruence.
Qed.
End EnvelopeFacts.

(** ** The reference implementation meets the laws *)

Module RefFacts.
Import Ref.

Lemma rand_laws : @RandLaws _ rand.
Proof.
  split. intros n tape bs r'. unfold rand_Read, rand.
  destruct (Nat.leb_spec n (length tape)); [|discriminate].
  intros [= <- _]. rewrite length_take. lia.
Qed.

Lemma argon2_laws : @Argon2Laws argon2.
Proof.
  split. intros pw salt t m p keyLen. unfold argon2_hash, argon2.
  rewrite length_take, !length_app, length_replicate. lia.
Qed.

Lemma open_seal k n pt ad : open k n (seal k n pt ad) ad = Some pt.
Proof.
  unfold open, bytes_eqb.
  assert (Hb : drop (length k + length n) (seal k n pt ad) = pt ++ pt).
  { unfold seal. rewrite (app_assoc k n), <- length_app. apply drop_app_length. }
  rewrite Hb, length_app.
  replace (length pt + length pt) with (length pt * 2) by lia.
  rewrite Nat.div_mul by lia.
  rewrite take_app_length. by rewrite bool_decide_eq_true_2.
Qed.

Lemma deoxys_laws : @DeoxysLaws deoxys.
Proof. split. apply open_seal. Qed.

Lemma count_put (n : nat) (r : list byte) :
  count (replicate n x01 ++ x00 :: r) = Some (n, r).
Proof. induction n as [|n IH]; cbn; [reflexivity | by rewrite IH]. Qed.

Lemma get_put (b r : list byte) : get (put b ++ r) = Some (b, r).
Proof.
  unfold get, put. rewrite <- app_assoc. cbn. rewrite count_put.
  rewrite length_app.
  destruct (Nat.leb_spec (length b) (length b + length r)); [|lia].
  by rewrite take_app_length, drop_app_length.
Qed.

Lemma unmarshal_marshal_state (s : secretState) :
  unmarshal_state (marshal_state s) = Ok (coerceState s).
Proof.
  unfold unmarshal_state, marshal_state. rewrite get_put.
  rewrite <- (app_nil_r (put _)), get_put.
  by rewrite !string_of_list_byte_of_string.
Qed.

Lemma json_laws : @JSONLaws json.
Proof.
  split.
  - intros s. exists (marshal_state s). split; [reflexivity|].
    apply unmarshal_marshal_state.
  - intros bs e. cbn. unfold unmarshal_state.
    destruct (get bs) as [[a r]|]; [|intros [= <-]; eauto].
    destruct (get r) as [[d [|]]|]; intros [= <-]; eauto.
Qed.

Lemma tags_laws : @WalletTagsLaws tags.
Proof.
  split; cbn; [|discriminate].
  apply (bool_decide_unpack (NoDup _)). by vm_compute.
Qed.
End RefFacts.

(** ** The sealed envelope *)

Section EnvelopeClaims.
Context `{Argon2id, DeoxysII, JSONCodec}.
Context {R : Type} `{RandSource R}.

(** C1, as amended.  If the algorithm tag and the data of a secret state
    are valid UTF-8 and [Seal] succeeds on it, then [Open] on the
    resulting envelope with the same passphrase succeeds and returns that
    very state. *)
Theorem Seal_Open_valid_utf8 `{!DeoxysLaws, !JSONLaws}
    (s : secretState) (p : string) (r r' : R) (e : secretStateEnvelope) :
  utf8_ValidString (Algorithm s) = true ->
  utf8_ValidString (Data s) = true ->
  Seal s p r = (Ok e, r') ->
  Open e p = Ok s.
Proof.
  intros Ha Hd Hs. rewrite (Seal_Open_coerced _ _ _ _ _ Hs).
  by rewrite coerceState_valid.
Qed.

(** Whatever cipher, key derivation and random source are used, a state
    whose data is not valid UTF-8 does not come back from [Open]. *)
Lemma Seal_Open_invalid_utf8 `{!DeoxysLaws, !JSONLaws}
    (s : secretState) (p : string) (r r' : R) (e : secretStateEnvelope) :
  utf8_ValidString (Data s) = false ->
  Seal s p r = (Ok e, r') ->
  exists s', Open e p = Ok s' /\ utf8_ValidString (Data s') = true /\ s' <> s.
Proof.
  intros Hd Hs. exists (coerceState s).
  split; [by eapply Seal_Open_coerced|].
  assert (Hv : utf8_ValidString (Data (coerceState s)) = true)
    by apply toValidUTF8_is_valid.
  split; [exact Hv|]. intros Heq. rewrite Heq in Hv. congruence.
Qed.

(** Every envelope that [Seal] returns stores more nonce bytes than the
    cipher takes, and [Open] accepts it all the same. *)
Lemma Seal_nonce_longer `{!RandLaws R, !DeoxysLaws, !JSONLaws}
    (s : secretState) (p : string) (r r' : R) (e : secretStateEnvelope) :
  Seal s p r = (Ok e, r') ->
  length (env_Nonce e) = stateNonceSize /\
  length (env_Nonce e) <> deoxysii_NonceSize /\
  Open e p = Ok (coerceState s).
Proof.
  intros Hs. pose proof (Seal_Open_coerced _ _ _ _ _ Hs) as Ho.
  apply Seal_inv in Hs
    as (nonce & salt & r1 & key & data & Hn & _ & _ & _ & _ & _ & ->).
  apply rand_Read_length in Hn. cbn [env_Nonce]. rewrite Hn.
  split; [done|]. split; [|exact Ho].
  unfold stateNonceSize, deoxysii_NonceSize. lia.
Qed.

(** C3, as amended.  [Seal] encrypts under the first [deoxysii_NonceSize]
    bytes of the nonce it stores, and [Open], on an envelope that stores
    at least that many bytes, decrypts under the first
    [deoxysii_NonceSize] of them; that prefix has exactly the size the
    cipher requires, and bytes stored after it are dropped without an
    error: they do not change what [Open] returns. *)
Theorem nonce_prefix_is_used :
  (forall (s : secretState) (p : string) (r r' : R) (e : secretStateEnvelope),
     Seal s p r = (Ok e, r') ->
     exists key data,
       deriveKey e p = Ok key /\ json_Marshal_state s = Ok data /\
       length (take deoxysii_NonceSize (env_Nonce e)) = deoxysii_NonceSize /\
       env_Data e =
         deoxys_seal key (take deoxysii_NonceSize (env_Nonce e)) data []) /\
  (forall (e : secretStateEnvelope) (p : string) (key : list byte),
     deriveKey e p = Ok key ->
     length key = deoxysii_KeySize ->
     deoxysii_NonceSize <= length (env_Nonce e) ->
     length (take deoxysii_NonceSize (env_Nonce e)) = deoxysii_NonceSize /\
     Open e p =
       match deoxys_open key (take deoxysii_NonceSize (env_Nonce e))
                         (env_Data e) [] with
       | Some pt => json_Unmarshal_state pt
       | None => Err ErrDeoxysOpen
       end) /\
  (forall (e : secretStateEnvelope) (p : string) (extra : list byte),
     deoxysii_NonceSize <= length (env_Nonce e) ->
     Open {| env_KDF := env_KDF e;
             env_Nonce := env_Nonce e ++ extra;
             env_Data := env_Data e |} p = Open e p).
Proof.
  split; [|split].
  - intros s p r r' e
      (nonce & salt & r1 & key & data & _ & _ & Hk & Hd & _ & Hn & ->)%Seal_inv.
    exists key, data. cbn [env_Nonce env_Data].
    rewrite length_take. repeat split; try assumption; lia.
  - intros e p key Hk Hlen Hn. split.
    + rewrite length_take. lia.
    + by apply Open_with_key.
  - intros e p extra Hn. unfold Open. cbn [env_KDF env_Nonce env_Data].
    unfold deriveKey. cbn [env_KDF].
    destruct (match Argon2 (env_KDF e) with
              | Some k => kdfArgon2_deriveKey k p
              | None => _ end) as [key| |]; [|reflexivity..].
    cbn [mbind outcome_bind].
    destruct (deoxysii_New key) as [aead| |]; [|reflexivity..].
    cbn [mbind outcome_bind]. unfold aead_NonceSize.
    rewrite !slice_to_Ok by (rewrite ?length_app; lia).
    by rewrite take_app_le.
Qed.

(** C5.  The key that [Open] decrypts with is computed from the
    passphrase and the salt and parameters of the envelope's own Argon2
    descriptor, whatever the rest of the envelope holds; and when the
    descriptor has no Argon2 variant, [Open] returns the
    unsupported-algorithm error, hence no state. *)
Theorem Open_key_from_descriptor (e : secretStateEnvelope) (p : string) :
  (forall k, Argon2 (env_KDF e) = Some k ->
     deriveKey e p =
       argon2_IDKey (list_byte_of_string p) (Salt k) (Time k) (Memory k)
                    (Threads k) stateKeySize) /\
  (forall e', env_KDF e' = env_KDF e -> deriveKey e' p = deriveKey e p) /\
  Open e p =
    (key ← deriveKey e p;
     aead ← deoxysii_New key;
     nonce ← slice_to (env_Nonce e) (aead_NonceSize aead);
     pt ← aead_Open aead [] nonce (env_Data e) [];
     json_Unmarshal_state pt) /\
  (Argon2 (env_KDF e) = None ->
     Open e p = Err (Errorf "unsupported key derivation algorithm" []) /\
     forall s, Open e p <> Ok s).
Proof.
  split; [|split; [|split]].
  - intros k Hk. unfold deriveKey. by rewrite Hk.
  - intros e' He. unfold deriveKey. by rewrite He.
  - reflexivity.
  - intros Hnone.
    assert (Ho : Open e p =
                 Err (Errorf "unsupported key derivation algorithm" []))
      by (unfold Open, deriveKey; by rewrite Hnone).
    split; [exact Ho|]. intros s Hs. rewrite Ho in Hs. discriminate.
Qed.

(** C6.  An envelope returned by [Seal] holds the 32 bytes of the first
    read of the random source in that call as its nonce and the 32 bytes
    of the second read as the salt of an Argon2 descriptor with time 1,
    memory 64 * 1024 KiB and 4 threads; the key derived from that
    descriptor is the Argon2 hash of the passphrase and is 32 bytes
    long. *)
Theorem Seal_envelope_shape `{!RandLaws R}
    (s : secretState) (p : string) (r r' : R) (e : secretStateEnvelope) :
  Seal s p r = (Ok e, r') ->
  exists nonce salt r1 key,
    rand_Read 32 r = (Ok nonce, r1) /\
    rand_Read 32 r1 = (Ok salt, r') /\
    length nonce = 32 /\ length salt = 32 /\
    env_Nonce e = nonce /\
    Argon2 (env_KDF e) =
      Some {| Salt := salt; Time := 1; Memory := 65536; Threads := 4 |} /\
    (65536 * 1024 = 64 * 1024 * 1024)%N /\
    deriveKey e p = Ok key /\
    key = argon2_hash (list_byte_of_string p) salt 1 65536 4 32 /\
    length key = 32.
Proof.
  intros (nonce & salt & r1 & key & data & Hn & Hs & Hk & _ & Hlen & _ & ->)
    %Seal_inv.
  exists nonce, salt, r1, key.
  pose proof (rand_Read_length _ _ _ _ Hn).
  pose proof (rand_Read_length _ _ _ _ Hs).
  repeat split; try assumption; try reflexivity.
  unfold argon2_IDKey in Hk. cbn in Hk. by injection Hk as <-.
Qed.

(** C8.  When the cipher accepts the envelope and [json.Unmarshal]
    rejects the decrypted text, [Open] returns the error of
    [json.Unmarshal], which is not the cipher's authentication error. *)
Theorem Open_unmarshal_error `{!JSONLaws}
    (e : secretStateEnvelope) (p : string) (key pt : list byte) (err : error) :
  deriveKey e p = Ok key ->
  length key = deoxysii_KeySize ->
  deoxysii_NonceSize <= length (env_Nonce e) ->
  deoxys_open key (take deoxysii_NonceSize (env_Nonce e)) (env_Data e) []
    = Some pt ->
  json_Unmarshal_state pt = Err err ->
  Open e p = Err err /\ err <> ErrDeoxysOpen /\ Open e p <> Err ErrDeoxysOpen.
Proof.
  intros Hk Hlen Hn Ho Hu.
  rewrite (Open_with_key _ _ key), Ho, Hu by assumption.
  apply json_Unmarshal_state_error in Hu as [msg ->].
  repeat split; discriminate.
Qed.

End EnvelopeClaims.

(** ** The wallet *)

Section WalletClaims.
Context `{WalletTags, SignerLib, Mapstructure}.

Lemma tags_ne `{!WalletTagsLaws} :
  AlgorithmEd25519Adr8 <> AlgorithmEd25519Raw /\
  AlgorithmEd25519Adr8 <> AlgorithmSecp256k1Bip44 /\
  AlgorithmEd25519Adr8 <> AlgorithmSecp256k1Raw /\
  AlgorithmEd25519Raw <> AlgorithmSecp256k1Bip44 /\
  AlgorithmEd25519Raw <> AlgorithmSecp256k1Raw /\
  AlgorithmSecp256k1Bip44 <> AlgorithmSecp256k1Raw.
Proof.
  pose proof algorithms_distinct as Hd.
  rewrite !NoDup_cons, !elem_of_cons, !elem_of_nil in Hd.
  intuition congruence.
Qed.

(** The wallet that [newWallet] returns holds the configuration and the
    state it was given, and a signer of the family of the state's tag. *)
Lemma newWallet_inv state cfg w :
  newWallet state cfg = Ok w ->
  w_cfg w = cfg /\ w_state w = state /\
  ((Algorithm state = AlgorithmEd25519Adr8 \/
    Algorithm state = AlgorithmEd25519Raw) /\
   (exists inner, w_signer w = Ed25519Wrapped inner)
   \/
   (Algorithm state <> AlgorithmEd25519Adr8 /\
    Algorithm state <> AlgorithmEd25519Raw /\
    (Algorithm state = AlgorithmSecp256k1Bip44 \/
     Algorithm state = AlgorithmSecp256k1Raw)) /\
   (exists k, w_signer w = Secp256k1 k)).
Proof.
  unfold newWallet. intros Hw.
  repeat case_decide; try discriminate;
    apply bind_Ok_inv in Hw as (sg & _ & [= <-]); cbn;
    (split; [reflexivity|]; split; [reflexivity|]);
    [left | left | right | right]; eauto 10.
Qed.

(** [ConsensusSigner] on a wallet built by [newWallet], by the algorithm of
    the state. *)
Lemma ConsensusSigner_newWallet `{!WalletTagsLaws}
    (state : secretState) (cfg : walletConfig) (w : fileWallet) :
  newWallet state cfg = Ok w ->
  (is_Some (ConsensusSigner w) <->
     Algorithm state = AlgorithmEd25519Adr8 \/
     Algorithm state = AlgorithmEd25519Raw) /\
  (Algorithm state = AlgorithmSecp256k1Bip44 \/
   Algorithm state = AlgorithmSecp256k1Raw ->
     ConsensusSigner w = None) /\
  (forall rawCfg cfg',
     unmarshalConfig rawCfg = Ok cfg' ->
     cfg_Algorithm cfg' = Algorithm state ->
     HasConsensusSigner rawCfg = Ok (bool_decide (is_Some (ConsensusSigner w)))).
Proof.
  intros Hw. pose proof tags_ne as (? & ? & ? & ? & ? & ?).
  apply newWallet_inv in Hw as (_ & _ & Hw). unfold ConsensusSigner.
  destruct Hw as [[Hed [inner ->]] | [(Hn1 & Hn2 & Hsecp) [k ->]]].
  - split; [|split].
    + split; [auto | eauto].
    + intros [Hs | Hs]; destruct Hed; congruence.
    + intros rawCfg cfg' Hc Ha. unfold HasConsensusSigner. rewrite Hc, Ha.
      rewrite decide_True by tauto.
      by rewrite bool_decide_eq_true_2 by eauto.
  - split; [|split].
    + split; [intros [? [=]] | tauto].
    + reflexivity.
    + intros rawCfg cfg' Hc Ha. unfold HasConsensusSigner. rewrite Hc, Ha.
      rewrite decide_False by tauto.
      by rewrite bool_decide_eq_false_2 by (intros [? [=]]).
Qed.

(** C7.  Under Ed25519-Raw and under Secp256k1-Raw, two configurations
    that differ only in the account number give, for the same secret
    data, the same outcome of [newWallet] as far as the signer goes, and
    the same address. *)
Theorem raw_key_ignores_number `{!WalletTagsLaws}
    (alg data calg : string) (n1 n2 : N) :
  alg = AlgorithmEd25519Raw \/ alg = AlgorithmSecp256k1Raw ->
  let state := {| Algorithm := alg; Data := data |} in
  let cfg1 := {| cfg_Algorithm := calg; cfg_Number := n1 |} in
  let cfg2 := {| cfg_Algorithm := calg; cfg_Number := n2 |} in
  Signer <$> newWallet state cfg1 = Signer <$> newWallet state cfg2 /\
  newWallet state cfg1 ≫= Address = newWallet state cfg2 ≫= Address.
Proof.
  intros Halg. pose proof tags_ne as (? & ? & ? & ? & ? & ?). cbn zeta.
  unfold newWallet. cbn [Algorithm Data cfg_Number].
  destruct Halg as [-> | ->]; repeat case_decide; try congruence.
  - destruct (ed25519raw_unmarshalBase64 data); split; reflexivity.
  - destruct (Secp256k1FromHex data); split; reflexivity.
Qed.
End WalletClaims.

(** ** The factory *)

Section FactoryClaims.
Context `{WalletTags, SignerLib, Argon2id, DeoxysII, JSONCodec,
          Mapstructure, Paths}.
Context {R : Type} `{RandSource R, Bip39 R}.

(** [Create] and [Import] build the state from the configuration, so the
    wallet they return has the algorithm of the configuration in both. *)
Lemma Import_newWallet (name passphrase : string)
    (rawCfg : option (gmap string iface)) (src : ImportSource)
    (w w' : World R) (wallet : fileWallet) :
  Import name passphrase rawCfg src w = (Ok wallet, w') ->
  exists cfg,
    unmarshalConfig rawCfg = Ok cfg /\
    newWallet {| Algorithm := cfg_Algorithm cfg; Data := src_Data src |} cfg
      = Ok wallet.
Proof.
  unfold Import, io_bind, io_pure, io_ret. intros Hi.
  destruct (unmarshalConfig rawCfg) as [cfg| |]; [|discriminate..].
  destruct (checkImport cfg src) as [[]| |]; [|discriminate..].
  destruct (newWallet _ cfg) as [wl| |] eqn:Hw; [|discriminate..].
  destruct (io_wrap_err _ (with_rand _) w) as [[env| |] w1]; [|discriminate..].
  destruct (wrap_err _ (json_Marshal_envelope env)) as [raw| |];
    [|discriminate..].
  destruct (io_wrap_err _ (with_fs _) w1) as [[[]| |] w2]; [|discriminate..].
  injection Hi as <- <-. eauto.
Qed.

Lemma Create_newWallet (name passphrase : string)
    (rawCfg : option (gmap string iface))
    (w w' : World R) (wallet : fileWallet) :
  Create name passphrase rawCfg w = (Ok wallet, w') ->
  exists cfg mnemonic,
    unmarshalConfig rawCfg = Ok cfg /\
    newWallet {| Algorithm := cfg_Algorithm cfg; Data := mnemonic |} cfg
      = Ok wallet.
Proof.
  unfold Create, io_bind, io_pure. intros Hc.
  destruct (unmarshalConfig rawCfg) as [cfg| |]; [|discriminate..].
  destruct (with_rand _ w) as [[entropy| |] w1]; [|discriminate..].
  destruct (bip39_NewMnemonic entropy) as [mnemonic| |]; [|discriminate..].
  destruct (io_wrap_err _ (with_rand _) w1) as [[env| |] w2]; [|discriminate..].
  destruct (wrap_err _ (json_Marshal_envelope env)) as [raw| |];
    [|discriminate..].
  destruct (io_wrap_err _ (with_fs _) w2) as [[[]| |] w3]; [|discriminate..].
  injection Hc as Hw <-. eauto.
Qed.

(** C9.  The wallet returned by a successful [Import] exports exactly the
    data string of the import source. *)
Theorem Import_UnsafeExport (name passphrase : string)
    (rawCfg : option (gmap string iface)) (src : ImportSource)
    (w w' : World R) (wallet : fileWallet) :
  Import name passphrase rawCfg src w = (Ok wallet, w') ->
  UnsafeExport wallet = src_Data src.
Proof.
  intros (cfg & _ & Hw)%Import_newWallet. unfold UnsafeExport.
  by apply newWallet_inv in Hw as (_ & -> & _).
Qed.

(** C10.  [Create] writes the sealed wallet file before it builds the
    signer: when every step up to the write succeeds and [newWallet]
    then fails on the fresh mnemonic, [Create] returns that error and the
    file is in place; this is the case whenever the configured algorithm
    is none of the four known tags.  [Import] builds the signer first:
    when [newWallet] fails, it returns that error and the world is
    unchanged. *)
Theorem Create_persists_before_newWallet
    (name passphrase : string) (rawCfg : option (gmap string iface))
    (cfg : walletConfig) :
  unmarshalConfig rawCfg = Ok cfg ->
  (forall (w : World R) entropy r1 mnemonic envelope r2 raw,
     bip39_NewEntropy 256 (world_rand w) = (Ok entropy, r1) ->
     bip39_NewMnemonic entropy = Ok mnemonic ->
     Seal {| Algorithm := cfg_Algorithm cfg; Data := mnemonic |}
          passphrase r1 = (Ok envelope, r2) ->
     json_Marshal_envelope envelope = Ok raw ->
     getWalletFilename name ∉ fs_readonly (world_fs w) ->
     let written :=
       mkWorld r2 {| fs_files := <[getWalletFilename name := raw]>
                                   (fs_files (world_fs w));
                     fs_readonly := fs_readonly (world_fs w) |} in
     (forall err,
        newWallet {| Algorithm := cfg_Algorithm cfg; Data := mnemonic |} cfg
          = Err err ->
        Create name passphrase rawCfg w = (Err err, written) /\
        fs_files (world_fs written) !! getWalletFilename name = Some raw) /\
     (cfg_Algorithm cfg ∉ [AlgorithmEd25519Adr8; AlgorithmEd25519Raw;
                           AlgorithmSecp256k1Bip44; AlgorithmSecp256k1Raw] ->
        Create name passphrase rawCfg w =
          (Err (Errorf "algorithm '%s' not supported" [cfg_Algorithm cfg]),
           written))) /\
  (forall (w : World R) (src : ImportSource) err,
     checkImport cfg src = Ok tt ->
     newWallet {| Algorithm := cfg_Algorithm cfg; Data := src_Data src |} cfg
       = Err err ->
     Import name passphrase rawCfg src w = (Err err, w)).
Proof.
  intros Hcfg. split.
  - intros w entropy r1 mnemonic envelope r2 raw He Hm Hs Hj Hro written.
    assert (Hrun : Create name passphrase rawCfg w =
              (newWallet {| Algorithm := cfg_Algorithm cfg; Data := mnemonic |}
                         cfg, written)).
    { unfold Create, io_bind, io_pure, io_wrap_err, with_rand, with_fs.
      rewrite Hcfg. destruct w as [r fs]. cbn [world_rand world_fs] in *.
      rewrite He. cbn [world_rand world_fs]. rewrite Hm, Hs.
      cbn [wrap_err world_rand world_fs]. rewrite Hj. cbn [wrap_err].
      unfold ioutil_WriteFile. rewrite decide_False by assumption.
      reflexivity. }
    split.
    + intros err Hw. rewrite Hrun, Hw. split; [reflexivity|].
      cbn. apply lookup_insert_eq.
    + intros Hnot. rewrite Hrun. f_equal.
      rewrite !not_elem_of_cons in Hnot. destruct Hnot as (? & ? & ? & ? & _).
      unfold newWallet. cbn [Algorithm].
      by rewrite !decide_False by assumption.
  - intros w src err Hc Hw.
    unfold Import, io_bind, io_pure. by rewrite Hcfg, Hc, Hw.
Qed.

(** [Load] builds the wallet from the state of the file and the
    configuration of the caller. *)
Lemma Load_newWallet (name passphrase : string)
    (rawCfg : option (gmap string iface))
    (w w' : World R) (wallet : fileWallet) :
  Load name passphrase rawCfg w = (Ok wallet, w') ->
  exists cfg state,
    unmarshalConfig rawCfg = Ok cfg /\ newWallet state cfg = Ok wallet.
Proof.
  unfold Load, io_bind, io_pure, io_wrap_err, with_fs, ioutil_ReadFile.
  intros Hl.
  destruct (unmarshalConfig rawCfg) as [cfg| |]; [|discriminate..].
  destruct w as [r fs]. cbn [world_rand world_fs] in Hl.
  destruct (fs_files fs !! getWalletFilename name); [|discriminate].
  cbn [wrap_err] in Hl.
  destruct (wrap_err _ (json_Unmarshal_envelope _)) as [envelope| |];
    [|discriminate..].
  destruct (Open envelope passphrase) as [state| |]; [|discriminate..].
  exists cfg, state. split; [reflexivity|]. by injection Hl.
Qed.

(** C4.  For a wallet built by [newWallet], [ConsensusSigner] returns a
    signer exactly when the algorithm of the wallet's state is
    Ed25519-ADR8 or Ed25519-Raw, it returns nil when that algorithm is
    Secp256k1-BIP44 or Secp256k1-Raw, and [HasConsensusSigner] on a
    configuration naming the same algorithm gives the same answer; so it
    does on the configuration that [Create] or [Import] built the wallet
    from.  For a wallet that [Load] returns the same holds of the state
    read from the file, and [HasConsensusSigner] on the configuration given
    to [Load] gives the same answer exactly when that configuration and the
    state are both of an Ed25519 algorithm or both not. *)
Theorem ConsensusSigner_iff_ed25519 `{!WalletTagsLaws} :
  (forall (state : secretState) (cfg : walletConfig) (w : fileWallet),
     newWallet state cfg = Ok w ->
     (is_Some (ConsensusSigner w) <->
        Algorithm state = AlgorithmEd25519Adr8 \/
        Algorithm state = AlgorithmEd25519Raw) /\
     (Algorithm state = AlgorithmSecp256k1Bip44 \/
      Algorithm state = AlgorithmSecp256k1Raw ->
        ConsensusSigner w = None) /\
     (forall rawCfg cfg',
        unmarshalConfig rawCfg = Ok cfg' ->
        cfg_Algorithm cfg' = Algorithm state ->
        HasConsensusSigner rawCfg =
          Ok (bool_decide (is_Some (ConsensusSigner w))))) /\
  (forall name passphrase rawCfg src (w w' : World R) wallet,
     Import name passphrase rawCfg src w = (Ok wallet, w') ->
     HasConsensusSigner rawCfg =
       Ok (bool_decide (is_Some (ConsensusSigner wallet)))) /\
  (forall name passphrase rawCfg (w w' : World R) wallet,
     Create name passphrase rawCfg w = (Ok wallet, w') ->
     HasConsensusSigner rawCfg =
       Ok (bool_decide (is_Some (ConsensusSigner wallet)))) /\
  (forall name passphrase rawCfg (w w' : World R) wallet,
     Load name passphrase rawCfg w = (Ok wallet, w') ->
     (is_Some (ConsensusSigner wallet) <->
        Algorithm (w_state wallet) = AlgorithmEd25519Adr8 \/
        Algorithm (w_state wallet) = AlgorithmEd25519Raw) /\
     (Algorithm (w_state wallet) = AlgorithmSecp256k1Bip44 \/
      Algorithm (w_state wallet) = AlgorithmSecp256k1Raw ->
        ConsensusSigner wallet = None) /\
     (HasConsensusSigner rawCfg =
        Ok (bool_decide (is_Some (ConsensusSigner wallet))) <->
      (cfg_Algorithm (w_cfg wallet) = AlgorithmEd25519Adr8 \/
       cfg_Algorithm (w_cfg wallet) = AlgorithmEd25519Raw <->
       Algorithm (w_state wallet) = AlgorithmEd25519Adr8 \/
       Algorithm (w_state wallet) = AlgorithmEd25519Raw))).
Proof.
  split; [|split; [|split]].
  - intros state cfg w. apply ConsensusSigner_newWallet.
  - intros name passphrase rawCfg src w w' wallet
      (cfg & Hcfg & Hw)%Import_newWallet.
    by eapply ConsensusSigner_newWallet.
  - intros name passphrase rawCfg w w' wallet
      (cfg & mnemonic & Hcfg & Hw)%Create_newWallet.
    by eapply ConsensusSigner_newWallet.
  - intros name passphrase rawCfg w w' wallet
      (cfg & state & Hcfg & Hw)%Load_newWallet.
    destruct (ConsensusSigner_newWallet _ _ _ Hw) as (Hiff & Hnone & _).
    apply newWallet_inv in Hw as (-> & -> & _).
    split; [exact Hiff|]. split; [exact Hnone|].
    unfold HasConsensusSigner. rewrite Hcfg.
    destruct (decide (cfg_Algorithm cfg = AlgorithmEd25519Raw \/
                      cfg_Algorithm cfg = AlgorithmEd25519Adr8)) as [Hc|Hc];
      case_bool_decide as Hs; rewrite Hiff in Hs;
      (split; [intros Heq; first [discriminate Heq | tauto]
              | intros Hab; first [reflexivity | exfalso; tauto]]).
Qed.

End FactoryClaims.

(** ** Runs on the reference implementation *)

Section Runs.
Existing Instances Ref.rand Ref.argon2 Ref.deoxys Ref.json Ref.tags
  Ref.signers Ref.decode Ref.bip39 Ref.paths.
Existing Instances RefFacts.rand_laws RefFacts.argon2_laws
  RefFacts.deoxys_laws RefFacts.json_laws RefFacts.tags_laws.

(** A run of the round trip on the sample state. *)
Lemma Seal_Open_valid_utf8_witness :
  exists e r',
    Seal Ref.sample_state "hunter2" (Ref.tape 64) = (Ok e, r') /\
    Open e "hunter2" = Ok Ref.sample_state.
Proof.
  eexists _, _. split; [vm_compute; reflexivity|].
  eapply (Seal_Open_valid_utf8 Ref.sample_state "hunter2" (Ref.tape 64));
    [reflexivity | reflexivity | vm_compute; reflexivity].
Defined.

(** C1 fails as stated: the state whose data is the byte [FF] is sealed,
    and opening the envelope gives a state whose data is U+FFFD. *)
Lemma Seal_Open_binary_data :
  exists e r',
    Seal Ref.binary_state "hunter2" (Ref.tape 64) = (Ok e, r') /\
    Open e "hunter2" =
      Ok {| Algorithm := "ed25519-raw";
            Data := replacementChar "" |} /\
    Open e "hunter2" <> Ok Ref.binary_state.
Proof.
  eexists _, _. split; [vm_compute; reflexivity|].
  split; [vm_compute; reflexivity|]. vm_compute. discriminate.
Qed.

(** C3 fails as stated: the envelope made by [Seal] stores 32 nonce bytes
    where the cipher takes 15, and [Open] accepts it; it also accepts the
    envelope after the 17 bytes that the cipher does not see were
    overwritten. *)
Lemma Open_accepts_longer_nonce :
  exists e r',
    Seal Ref.sample_state "hunter2" (Ref.tape 64) = (Ok e, r') /\
    length (env_Nonce e) = 32 /\ deoxysii_NonceSize = 15 /\
    Open e "hunter2" = Ok Ref.sample_state /\
    Open {| env_KDF := env_KDF e;
            env_Nonce := take 15 (env_Nonce e) ++ replicate 17 xff;
            env_Data := env_Data e |} "hunter2" = Ok Ref.sample_state.
Proof.
  eexists _, _. split; [vm_compute; reflexivity|].
  repeat split; vm_compute; reflexivity.
Qed.

(** Two more bytes after the stored nonce change nothing. *)
Lemma nonce_prefix_is_used_witness :
  exists e r',
    Seal Ref.sample_state "hunter2" (Ref.tape 64) = (Ok e, r') /\
    Open {| env_KDF := env_KDF e;
            env_Nonce := env_Nonce e ++ [xff; xff];
            env_Data := env_Data e |} "hunter2" = Open e "hunter2".
Proof.
  eexists _, _. split; [vm_compute; reflexivity|].
  apply nonce_prefix_is_used. vm_compute. lia.
Defined.

(** An envelope without an Argon2 descriptor is refused. *)
Lemma Open_key_from_descriptor_witness :
  Open {| env_KDF := {| Argon2 := None |};
          env_Nonce := Ref.tape 32;
          env_Data := [x01; x02] |} "hunter2" =
    Err (Errorf "unsupported key derivation algorithm" []).
Proof. by apply Open_key_from_descriptor. Defined.

(** The envelope sealed from the sample tape. *)
Lemma Seal_envelope_shape_witness :
  exists e r',
    Seal Ref.sample_state "hunter2" (Ref.tape 64) = (Ok e, r') /\
    exists nonce salt r1 key,
      rand_Read 32 (Ref.tape 64) = (Ok nonce, r1) /\
      rand_Read 32 r1 = (Ok salt, r') /\
      length nonce = 32 /\ length salt = 32 /\
      env_Nonce e = nonce /\
      Argon2 (env_KDF e) =
        Some {| Salt := salt; Time := 1; Memory := 65536; Threads := 4 |} /\
      (65536 * 1024 = 64 * 1024 * 1024)%N /\
      deriveKey e "hunter2" = Ok key /\
      key = argon2_hash (list_byte_of_string "hunter2") salt 1 65536 4 32 /\
      length key = 32.
Proof.
  eexists _, _. split; [vm_compute; reflexivity|].
  eapply (Seal_envelope_shape Ref.sample_state "hunter2" (Ref.tape 64)).
  vm_compute. reflexivity.
Defined.

(** The garbled envelope passes the cipher and fails in the decoder. *)
Lemma Open_unmarshal_error_witness :
  Open Ref.garbled "hunter2" = Err (ErrJSON "invalid character") /\
  ErrJSON "invalid character" <> ErrDeoxysOpen /\
  Open Ref.garbled "hunter2" <> Err ErrDeoxysOpen.
Proof.
  eapply Open_unmarshal_error.
  - vm_compute. reflexivity.
  - reflexivity.
  - vm_compute. lia.
  - vm_compute. reflexivity.
  - vm_compute. reflexivity.
Defined.

(** An Ed25519-Raw wallet has a consensus signer. *)
Lemma ConsensusSigner_iff_ed25519_witness :
  exists w,
    newWallet Ref.sample_state
      {| cfg_Algorithm := "ed25519-raw"; cfg_Number := 0 |} = Ok w /\
    is_Some (ConsensusSigner w) /\
    HasConsensusSigner (Ref.raw_config "ed25519-raw" 0) =
      Ok (bool_decide (is_Some (ConsensusSigner w))).
Proof.
  eexists. split; [vm_compute; reflexivity|].
  destruct (ConsensusSigner_iff_ed25519 (R := list byte)) as [Hnew _].
  edestruct (Hnew Ref.sample_state) as (Hiff & _ & Hhas);
    [vm_compute; reflexivity|].
  split.
  - apply Hiff. by right.
  - eapply Hhas; reflexivity.
Defined.

(** C4 fails as stated for a wallet that [Load] returns: a Secp256k1-Raw
    key is imported, and the file is loaded under a configuration that names
    Ed25519-Raw.  [Load] returns a wallet with that configuration,
    [HasConsensusSigner] on the configuration is true, and
    [ConsensusSigner] of the wallet is nil. *)
Lemma Load_other_family_no_consensus_signer :
  let key :=
    "4646464646464646464646464646464646464646464646464646464646464646" in
  let w1 := (Import "alice" "hunter2" (Ref.raw_config "secp256k1-raw" 0)
               {| src_Kind := "private key"; src_Data := key |}
               (Ref.empty_world 64)).2 in
  exists loaded,
    Load "alice" "hunter2" (Ref.raw_config "ed25519-raw" 0) w1 =
      (Ok loaded, w1) /\
    cfg_Algorithm (w_cfg loaded) = "ed25519-raw" /\
    Algorithm (w_state loaded) = "secp256k1-raw" /\
    ConsensusSigner loaded = None /\
    HasConsensusSigner (Ref.raw_config "ed25519-raw" 0) = Ok true /\
    HasConsensusSigner (Ref.raw_config "ed25519-raw" 0) <>
      Ok (bool_decide (is_Some (ConsensusSigner loaded))).
Proof.
  intros key w1. eexists. split; [vm_compute; reflexivity|].
  repeat split; try (vm_compute; reflexivity).
  vm_compute. discriminate.
Qed.

(** Account numbers 0 and 7 under Secp256k1-Raw. *)
Lemma raw_key_ignores_number_witness :
  let state := {| Algorithm := "secp256k1-raw"; Data := "c0ffee" |} in
  let cfg1 := {| cfg_Algorithm := "secp256k1-raw"; cfg_Number := 0 |} in
  let cfg2 := {| cfg_Algorithm := "secp256k1-raw"; cfg_Number := 7 |} in
  Signer <$> newWallet state cfg1 = Signer <$> newWallet state cfg2 /\
  newWallet state cfg1 ≫= Address = newWallet state cfg2 ≫= Address.
Proof.
  apply (raw_key_ignores_number "secp256k1-raw" "c0ffee" "secp256k1-raw" 0 7).
  by right.
Defined.

(** An import of the sample key, exported again. *)
Lemma Import_UnsafeExport_witness :
  exists wallet w',
    Import "alice" "hunter2" (Ref.raw_config "ed25519-raw" 0)
           {| src_Kind := "private key"; src_Data := Data Ref.sample_state |}
           (Ref.empty_world 64) = (Ok wallet, w') /\
    UnsafeExport wallet = Data Ref.sample_state.
Proof.
  eexists _, _. split; [vm_compute; reflexivity|].
  eapply (Import_UnsafeExport "alice" "hunter2"
            (Ref.raw_config "ed25519-raw" 0)
            {| src_Kind := "private key"; src_Data := Data Ref.sample_state |}
            (Ref.empty_world 64)).
  vm_compute. reflexivity.
Defined.

(** [Create] under Ed25519-Raw fails and leaves the file; [Import] of a
    malformed key fails and leaves nothing. *)
Lemma Create_persists_before_newWallet_witness :
  exists err w',
    Create "bob" "hunter2" (Ref.raw_config "ed25519-raw" 0)
           (Ref.empty_world 96) = (Err err, w') /\
    is_Some (fs_files (world_fs w') !! getWalletFilename "bob") /\
    Import "bob" "hunter2" (Ref.raw_config "ed25519-raw" 0)
           {| src_Kind := "private key"; src_Data := "not a key" |}
           (Ref.empty_world 96) = (Err err, Ref.empty_world 96).
Proof.
  edestruct (Create_persists_before_newWallet "bob" "hunter2"
               (Ref.raw_config "ed25519-raw" 0)) as [Hcreate Himport];
    [vm_compute; reflexivity|].
  edestruct (Hcreate (Ref.empty_world 96)) as [Hwrite _];
    [vm_compute; reflexivity.. | vm_compute; set_solver |].
  edestruct Hwrite as [Hrun Hfile]; [vm_compute; reflexivity|].
  eexists _, _. split; [exact Hrun|]. split; [by rewrite Hfile|].
  apply Himport; vm_compute; reflexivity.
Defined.
End Runs.

(** * Properties of the rest of the code *)

Module Ref2Facts.
Import Ref2.

Lemma getD_putD (n : N) (r : list byte) : getD (putD n ++ r) = Some (n, r).
Proof.
  unfold getD, putD. rewrite RefFacts.get_put. cbn.
  rewrite string_of_list_byte_of_string. unfold fmt_d.
  rewrite NilEmpty.usu. cbn. by rewrite Unsigned.of_to.
Qed.

Lemma unmarshal_marshal_envelope (e : secretStateEnvelope) :
  unmarshal_envelope (marshal_envelope e) = Ok e.
Proof.
  destruct e as [[[[salt t m p]|]] nonce data];
    unfold unmarshal_envelope, marshal_envelope, unmarshal_kdf;
    cbn [Argon2 env_KDF env_Nonce env_Data Salt Time Memory Threads].
  - rewrite RefFacts.get_put. cbn [mbind option_bind].
    do 3 (rewrite getD_putD; cbn [mbind option_bind]).
    rewrite RefFacts.get_put.
    by rewrite <- (app_nil_r (Ref.put data)), RefFacts.get_put.
  - rewrite RefFacts.get_put.
    by rewrite <- (app_nil_r (Ref.put data)), RefFacts.get_put.
Qed.

Lemma json2_laws : @JSONLaws json.
Proof.
  split.
  - intros s. exists (Ref.marshal_state s). split; [reflexivity|].
    apply RefFacts.unmarshal_marshal_state.
  - apply (@json_Unmarshal_state_error _ RefFacts.json_laws).
Qed.

Lemma json_envelope_laws : @JSONEnvelopeLaws json.
Proof.
  split. intros e _. exists (marshal_envelope e). split; [reflexivity|].
  apply unmarshal_marshal_envelope.
Qed.
End Ref2Facts.


(** ** Seal and Open, further *)

Section EnvelopeMore.
Context `{Argon2id, DeoxysII, JSONCodec}.
Context {R : Type} `{RandSource R}.

(** X1.  [Seal] fails only with the random source: when both reads
    succeed it returns an envelope, and an error it returns is the error of
    one of the two reads, with the source left as that read left it. *)
Theorem Seal_fails_only_with_rand `{!RandLaws R, !Argon2Laws, !JSONLaws}
    (s : secretState) (p : string) (r : R) :
  (forall nonce r1 salt r2,
     rand_Read stateNonceSize r = (Ok nonce, r1) ->
     rand_Read kdfSaltSize r1 = (Ok salt, r2) ->
     exists e, Seal s p r = (Ok e, r2)) /\
  (forall err r',
     Seal s p r = (Err err, r') ->
     rand_Read stateNonceSize r = (Err err, r') \/
     exists nonce r1,
       rand_Read stateNonceSize r = (Ok nonce, r1) /\
       rand_Read kdfSaltSize r1 = (Err err, r')).
Proof.
  assert (Hrun : forall nonce r1 salt r2,
    rand_Read stateNonceSize r = (Ok nonce, r1) ->
    rand_Read kdfSaltSize r1 = (Ok salt, r2) ->
    exists e, Seal s p r = (Ok e, r2)).
  { intros nonce r1 salt r2 Hn Hs.
    unfold Seal, io_bind, io_pure, io_ret. rewrite Hn, Hs.
    unfold deriveKey, kdfArgon2_deriveKey.
    cbn [env_KDF Argon2 Salt Time Memory Threads env_Nonce].
    rewrite argon2_IDKey_one_four.
    destruct (json_state_roundtrip s) as (data & -> & _).
    unfold deoxysii_New. rewrite argon2_hash_length.
    change (stateKeySize =? deoxysii_KeySize)%nat with true.
    cbn [mbind outcome_bind] || idtac.
    unfold aead_NonceSize. rewrite slice_to_Ok; [eauto|].
    apply rand_Read_length in Hn. rewrite Hn.
    unfold deoxysii_NonceSize, stateNonceSize. lia. }
  split; [exact Hrun|].
  intros err r' Hs.
  destruct (rand_Read stateNonceSize r) as [[nonce| |] r1] eqn:Hn.
  - destruct (rand_Read kdfSaltSize r1) as [[salt| |] r2] eqn:Hsalt.
    + destruct (Hrun _ _ _ _ eq_refl Hsalt) as [e He]. congruence.
    + right. exists nonce, r1. split; [reflexivity|].
      unfold Seal, io_bind in Hs. rewrite Hn, Hsalt in Hs. congruence.
    + unfold Seal, io_bind in Hs. rewrite Hn, Hsalt in Hs. congruence.
  - left. unfold Seal, io_bind in Hs. rewrite Hn in Hs. congruence.
  - unfold Seal, io_bind in Hs. rewrite Hn in Hs. congruence.
Qed.

(** X2.  The outcomes of [Open]: a state, the unsupported-algorithm error
    (exactly when the descriptor has no Argon2 variant), the cipher's
    authentication error, an error of [json.Unmarshal], or a panic.  The
    cipher's key-size error never comes out of it. *)
Theorem Open_outcomes `{!Argon2Laws, !JSONLaws}
    (e : secretStateEnvelope) (p : string) :
  ((exists s, Open e p = Ok s) \/
   Open e p = Err (Errorf "unsupported key derivation algorithm" []) \/
   Open e p = Err ErrDeoxysOpen \/
   (exists msg, Open e p = Err (ErrJSON msg)) \/
   (exists msg, Open e p = Panic msg)) /\
  (Open e p = Err (Errorf "unsupported key derivation algorithm" []) <->
   Argon2 (env_KDF e) = None) /\
  Open e p <> Err ErrDeoxysKeySize.
Proof.
  unfold Open, deriveKey, kdfArgon2_deriveKey, argon2_IDKey.
  destruct (Argon2 (env_KDF e)) as [k|]; cbn [mbind outcome_bind].
  2: { split; [tauto|]. split; [tauto | intros [=]]. }
  destruct (Time k <? 1)%N; cbn [mbind outcome_bind].
  { split; [eauto 10|]. split; [split; intros [=] | intros [=]]. }
  destruct (Threads k <? 1)%N; cbn [mbind outcome_bind].
  { split; [eauto 10|]. split; [split; intros [=] | intros [=]]. }
  unfold deoxysii_New. rewrite argon2_hash_length.
  change (stateKeySize =? deoxysii_KeySize)%nat with true.
  cbn [mbind outcome_bind]. unfold slice_to.
  destruct (_ <=? _)%nat; cbn [mbind outcome_bind].
  2: { split; [eauto 10|]. split; [split; intros [=] | intros [=]]. }
  unfold aead_Open. destruct deoxys_open as [pt|]; cbn [mbind outcome_bind].
  2: { split; [eauto 10|]. split; [split; intros [=] | intros [=]]. }
  cbn [app].
  destruct (json_Unmarshal_state pt) as [s|err|msg] eqn:Hu.
  - split; [eauto 10|]. split; [split; intros [=] | intros [=]].
  - apply json_Unmarshal_state_error in Hu as [msg ->].
    split; [eauto 10|]. split; [split; intros [=] | intros [=]].
  - split; [eauto 10|]. split; [split; intros [=] | intros [=]].
Qed.
End EnvelopeMore.

(** ** The factory, further *)

Section FactoryMore.
Context `{WalletTags, SignerLib, Argon2id, DeoxysII, JSONCodec,
          Mapstructure, Paths}.
Context {R : Type} `{RandSource R, Bip39 R}.

Lemma Load_run (name passphrase : string)
    (rawCfg : option (gmap string iface)) (cfg : walletConfig)
    (w : World R) (raw : list byte) (e : secretStateEnvelope) :
  unmarshalConfig rawCfg = Ok cfg ->
  fs_files (world_fs w) !! getWalletFilename name = Some raw ->
  json_Unmarshal_envelope raw = Ok e ->
  Load name passphrase rawCfg w =
    (match Open e passphrase with
     | Ok state => newWallet state cfg
     | Err _ => Err (Errorf
         "failed to open wallet state (maybe incorrect passphrase?)" [])
     | Panic msg => Panic msg
     end, w).
Proof.
  intros Hcfg Hf Hj.
  unfold Load, io_bind, io_pure, io_wrap_err, with_fs, ioutil_ReadFile.
  rewrite Hcfg, Hf. destruct w as [r fs]. cbn [wrap_err world_rand world_fs].
  rewrite Hj. cbn [wrap_err]. by destruct (Open e passphrase).
Qed.

(** X3.  An envelope whose Argon2 descriptor has time 0 or 0 threads makes
    [Open] panic in the key derivation, and [Load] of a wallet file that
    holds it panics with it rather than returning an error. *)
Theorem Open_zero_cost_panics (e : secretStateEnvelope) (k : kdfArgon2)
    (p : string) :
  Argon2 (env_KDF e) = Some k ->
  Time k = 0%N \/ Threads k = 0%N ->
  exists msg,
    Open e p = Panic msg /\
    forall name rawCfg cfg raw (w : World R),
      unmarshalConfig rawCfg = Ok cfg ->
      fs_files (world_fs w) !! getWalletFilename name = Some raw ->
      json_Unmarshal_envelope raw = Ok e ->
      Load name p rawCfg w = (Panic msg, w).
Proof.
  intros Hk Hz.
  assert (Ho : exists msg, Open e p = Panic msg).
  { unfold Open, deriveKey, kdfArgon2_deriveKey, argon2_IDKey. rewrite Hk.
    destruct Hz as [-> | ->]; [by eexists|].
    destruct (Time k <? 1)%N; by eexists. }
  destruct Ho as [msg Ho]. exists msg. split; [exact Ho|].
  intros name rawCfg cfg raw w Hcfg Hf Hj.
  by rewrite (Load_run _ _ _ _ _ _ _ Hcfg Hf Hj), Ho.
Qed.

(** X4.  [Load] leaves the world as it found it, whatever it returns: it
    writes no file and draws no randomness. *)
Theorem Load_leaves_world (name passphrase : string)
    (rawCfg : option (gmap string iface)) (w : World R) :
  (Load name passphrase rawCfg w).2 = w.
Proof.
  unfold Load, io_bind, io_pure, io_wrap_err, with_fs, ioutil_ReadFile.
  destruct w as [r fs]. cbn [world_rand world_fs].
  destruct (unmarshalConfig rawCfg); [|reflexivity..].
  destruct (fs_files fs !! getWalletFilename name); [|reflexivity].
  cbn [wrap_err].
  destruct (wrap_err _ (json_Unmarshal_envelope _)); [|reflexivity..].
  by destruct (Open _ passphrase).
Qed.

(** X5.  The errors of [Load]: a nil configuration is the
    missing-configuration error; a missing file and a file that does not
    unmarshal are wrapped as failures to load; and every error of [Open],
    the unsupported-algorithm error of an envelope without an Argon2
    descriptor among them, is replaced by the one
    maybe-incorrect-passphrase error. *)
Theorem Load_errors (name passphrase : string) (w : World R) :
  Load name passphrase None w = (Err (Errorf "missing configuration" []), w) /\
  (forall rawCfg cfg,
     unmarshalConfig rawCfg = Ok cfg ->
     (fs_files (world_fs w) !! getWalletFilename name = None ->
      Load name passphrase rawCfg w =
        (Err (Errorw "failed to load wallet state: %w" []
                (ErrIO "no such file or directory")), w)) /\
     (forall raw err,
        fs_files (world_fs w) !! getWalletFilename name = Some raw ->
        json_Unmarshal_envelope raw = Err err ->
        Load name passphrase rawCfg w =
          (Err (Errorw "failed to load wallet state: %w" [] err), w)) /\
     (forall raw e,
        fs_files (world_fs w) !! getWalletFilename name = Some raw ->
        json_Unmarshal_envelope raw = Ok e ->
        (exists err, Open e passphrase = Err err) ->
        Load name passphrase rawCfg w =
          (Err (Errorf
             "failed to open wallet state (maybe incorrect passphrase?)" []),
           w)) /\
     (forall raw e,
        fs_files (world_fs w) !! getWalletFilename name = Some raw ->
        json_Unmarshal_envelope raw = Ok e ->
        Argon2 (env_KDF e) = None ->
        Load name passphrase rawCfg w =
          (Err (Errorf
             "failed to open wallet state (maybe incorrect passphrase?)" []),
           w))).
Proof.
  split; [reflexivity|]. intros rawCfg cfg Hcfg.
  split; [|split; [|split]].
  - intros Hf. destruct w as [r fs]. cbn [world_fs] in Hf.
    unfold Load, io_bind, io_pure, io_wrap_err, with_fs, ioutil_ReadFile.
    by rewrite Hcfg; cbn [world_fs]; rewrite Hf.
  - intros raw err Hf Hj. destruct w as [r fs]. cbn [world_fs] in Hf.
    unfold Load, io_bind, io_pure, io_wrap_err, with_fs, ioutil_ReadFile.
    rewrite Hcfg; cbn [world_fs wrap_err world_rand]; rewrite Hf.
    cbn [wrap_err]. by rewrite Hj.
  - intros raw e Hf Hj [err Ho].
    by rewrite (Load_run _ _ _ _ _ _ _ Hcfg Hf Hj), Ho.
  - intros raw e Hf Hj Hk.
    rewrite (Load_run _ _ _ _ _ _ _ Hcfg Hf Hj).
    unfold Open, deriveKey. by rewrite Hk.
Qed.

Lemma Create_inv (name passphrase : string)
    (rawCfg : option (gmap string iface))
    (w w' : World R) (wallet : fileWallet) :
  Create name passphrase rawCfg w = (Ok wallet, w') ->
  exists cfg entropy r1 mnemonic envelope r2 raw,
    unmarshalConfig rawCfg = Ok cfg /\
    bip39_NewEntropy 256 (world_rand w) = (Ok entropy, r1) /\
    bip39_NewMnemonic entropy = Ok mnemonic /\
    Seal {| Algorithm := cfg_Algorithm cfg; Data := mnemonic |}
         passphrase r1 = (Ok envelope, r2) /\
    json_Marshal_envelope envelope = Ok raw /\
    (getWalletFilename name ∉ fs_readonly (world_fs w)) /\
    newWallet {| Algorithm := cfg_Algorithm cfg; Data := mnemonic |} cfg
      = Ok wallet /\
    w' = written w r2 raw name.
Proof.
  unfold Create, io_bind, io_pure, io_wrap_err, with_rand, with_fs,
    ioutil_WriteFile.
  destruct w as [r fs]. cbn [world_rand world_fs]. intros Hc.
  destruct (unmarshalConfig rawCfg) as [cfg| |]; [|discriminate..].
  destruct (bip39_NewEntropy 256 r) as [[entropy| |] r1] eqn:He;
    [|discriminate..].
  cbn [world_rand world_fs] in Hc.
  destruct (bip39_NewMnemonic entropy) as [mnemonic| |] eqn:Hm;
    [|discriminate..].
  destruct (Seal _ passphrase r1) as [[envelope| |] r2] eqn:Hs;
    [|discriminate..].
  cbn [wrap_err world_rand world_fs] in Hc.
  destruct (json_Marshal_envelope envelope) as [raw| |] eqn:Hj;
    [|discriminate..].
  cbn [wrap_err world_rand world_fs] in Hc.
  destruct (decide (getWalletFilename name ∈ fs_readonly fs));
    [discriminate|].
  cbn [wrap_err] in Hc. injection Hc as Hw <-.
  exists cfg, entropy, r1, mnemonic, envelope, r2, raw.
  unfold written. by repeat split.
Qed.

Lemma Import_inv (name passphrase : string)
    (rawCfg : option (gmap string iface)) (src : ImportSource)
    (w w' : World R) (wallet : fileWallet) :
  Import name passphrase rawCfg src w = (Ok wallet, w') ->
  exists cfg envelope r2 raw,
    unmarshalConfig rawCfg = Ok cfg /\
    checkImport cfg src = Ok tt /\
    newWallet {| Algorithm := cfg_Algorithm cfg; Data := src_Data src |} cfg
      = Ok wallet /\
    Seal {| Algorithm := cfg_Algorithm cfg; Data := src_Data src |}
         passphrase (world_rand w) = (Ok envelope, r2) /\
    json_Marshal_envelope envelope = Ok raw /\
    (getWalletFilename name ∉ fs_readonly (world_fs w)) /\
    w' = written w r2 raw name.
Proof.
  unfold Import, io_bind, io_pure, io_ret, io_wrap_err, with_rand, with_fs,
    ioutil_WriteFile.
  destruct w as [r fs]. cbn [world_rand world_fs]. intros Hc.
  destruct (unmarshalConfig rawCfg) as [cfg| |]; [|discriminate..].
  destruct (checkImport cfg src) as [[]| |] eqn:Hck; [|discriminate..].
  destruct (newWallet _ cfg) as [wl| |] eqn:Hw; [|discriminate..].
  destruct (Seal _ passphrase r) as [[envelope| |] r2] eqn:Hs;
    [|discriminate..].
  cbn [wrap_err world_rand world_fs] in Hc.
  destruct (json_Marshal_envelope envelope) as [raw| |] eqn:Hj;
    [|discriminate..].
  cbn [wrap_err world_rand world_fs] in Hc.
  destruct (decide (getWalletFilename name ∈ fs_readonly fs));
    [discriminate|].
  cbn [wrap_err] in Hc. injection Hc as <- <-.
  exists cfg, envelope, r2, raw. unfold written. by repeat split.
Qed.

(** What [Load] returns from a world in which the file of [name] holds a
    marshalled envelope sealed from a UTF-8 state. *)
Lemma Load_sealed `{!DeoxysLaws, !JSONLaws, !JSONEnvelopeLaws}
    (name passphrase : string) (rawCfg : option (gmap string iface))
    (cfg : walletConfig) (state : secretState) (r1 r2 : R)
    (envelope : secretStateEnvelope) (raw : list byte) (w : World R) :
  unmarshalConfig rawCfg = Ok cfg ->
  Seal state passphrase r1 = (Ok envelope, r2) ->
  json_Marshal_envelope envelope = Ok raw ->
  utf8_ValidString (Algorithm state) = true ->
  utf8_ValidString (Data state) = true ->
  Load name passphrase rawCfg (written w r2 raw name) =
    (newWallet state cfg, written w r2 raw name).
Proof.
  intros Hcfg Hs Hj Ha Hd.
  assert (Hin : envelope_in_range envelope).
  { apply Seal_inv in Hs
      as (nonce & salt & r0 & key & data & _ & _ & _ & _ & _ & _ & ->).
    cbn. repeat split; reflexivity. }
  destruct (json_envelope_roundtrip envelope Hin) as (raw' & Hm & Hu).
  assert (raw' = raw) as -> by congruence.
  rewrite (Load_run name passphrase rawCfg cfg _ raw envelope Hcfg);
    [|unfold written; cbn; apply lookup_insert_eq | exact Hu].
  rewrite (Seal_Open_coerced _ _ _ _ _ Hs).
  by rewrite coerceState_valid.
Qed.

(** X6.  A wallet made by [Create] is the wallet that [Load] returns for
    the same name, passphrase and configuration from the world [Create]
    left, when the algorithm tag and the mnemonic are UTF-8. *)
Theorem Create_then_Load `{!DeoxysLaws, !JSONLaws, !JSONEnvelopeLaws}
    (name passphrase : string) (rawCfg : option (gmap string iface))
    (w w' : World R) (wallet : fileWallet) :
  Create name passphrase rawCfg w = (Ok wallet, w') ->
  utf8_ValidString (Algorithm (w_state wallet)) = true ->
  utf8_ValidString (Data (w_state wallet)) = true ->
  Load name passphrase rawCfg w' = (Ok wallet, w').
Proof.
  intros (cfg & entropy & r1 & mnemonic & envelope & r2 & raw & Hcfg & _ & _
          & Hs & Hj & _ & Hw & ->)%Create_inv Ha Hd.
  pose proof (newWallet_inv _ _ _ Hw) as (_ & Hst & _).
  rewrite Hst in Ha, Hd.
  by rewrite (Load_sealed name passphrase rawCfg cfg _ r1 r2 envelope raw w
                Hcfg Hs Hj Ha Hd), Hw.
Qed.

(** X7.  A wallet made by [Import] is the wallet that [Load] returns for
    the same name, passphrase and configuration from the world [Import]
    left, when the algorithm tag and the imported data are UTF-8; what it
    exports is the imported data. *)
Theorem Import_then_Load `{!DeoxysLaws, !JSONLaws, !JSONEnvelopeLaws}
    (name passphrase : string) (rawCfg : option (gmap string iface))
    (src : ImportSource) (w w' : World R) (wallet : fileWallet) :
  Import name passphrase rawCfg src w = (Ok wallet, w') ->
  utf8_ValidString (Algorithm (w_state wallet)) = true ->
  utf8_ValidString (src_Data src) = true ->
  exists loaded,
    Load name passphrase rawCfg w' = (Ok loaded, w') /\
    loaded = wallet /\ UnsafeExport loaded = src_Data src.
Proof.
  intros (cfg & envelope & r2 & raw & Hcfg & _ & Hw & Hs & Hj & _ & ->)
    %Import_inv Ha Hd.
  pose proof (newWallet_inv _ _ _ Hw) as (_ & Hst & _).
  rewrite Hst in Ha. cbn [Algorithm] in Ha.
  exists wallet. split; [|split; [reflexivity|]].
  - by rewrite (Load_sealed name passphrase rawCfg cfg _ _ r2 envelope raw w
                  Hcfg Hs Hj Ha Hd), Hw.
  - unfold UnsafeExport. by rewrite Hst.
Qed.
End FactoryMore.

(** ** The wallet files *)

Section FactoryFiles.
Context `{WalletTags, SignerLib, Argon2id, DeoxysII, JSONCodec,
          Mapstructure, Paths}.
Context {R : Type} `{RandSource R, Bip39 R}.

(** [Create] either leaves the files alone or writes the one wallet file. *)
Lemma Create_files (name passphrase : string)
    (rawCfg : option (gmap string iface)) (w w' : World R)
    (o : outcome fileWallet) :
  Create name passphrase rawCfg w = (o, w') ->
  world_fs w' = world_fs w \/
  exists raw, world_fs w' = world_fs (written w (world_rand w') raw name).
Proof.
  unfold Create, io_bind, io_pure, io_wrap_err, with_rand, with_fs,
    ioutil_WriteFile.
  destruct w as [r fs]. cbn [world_rand world_fs]. intros Hc.
  destruct (unmarshalConfig rawCfg) as [cfg| |];
    [|injection Hc as <- <-; by left..].
  destruct (bip39_NewEntropy 256 r) as [[entropy| |] r1];
    [|injection Hc as <- <-; by left..].
  cbn [world_rand world_fs] in Hc.
  destruct (bip39_NewMnemonic entropy) as [mnemonic| |];
    [|injection Hc as <- <-; by left..].
  destruct (Seal _ passphrase r1) as [[envelope| |] r2];
    cbn [wrap_err world_rand world_fs] in Hc;
    [|injection Hc as <- <-; by left..].
  destruct (json_Marshal_envelope envelope) as [raw| |];
    cbn [wrap_err world_rand world_fs] in Hc;
    [|injection Hc as <- <-; by left..].
  destruct (decide (getWalletFilename name ∈ fs_readonly fs));
    cbn [wrap_err] in Hc; injection Hc as <- <-; [by left|].
  right. by exists raw.
Qed.

(** So does [Import]. *)
Lemma Import_files (name passphrase : string)
    (rawCfg : option (gmap string iface)) (src : ImportSource)
    (w w' : World R) (o : outcome fileWallet) :
  Import name passphrase rawCfg src w = (o, w') ->
  world_fs w' = world_fs w \/
  exists raw, world_fs w' = world_fs (written w (world_rand w') raw name).
Proof.
  unfold Import, io_bind, io_pure, io_ret, io_wrap_err, with_rand, with_fs,
    ioutil_WriteFile.
  destruct w as [r fs]. cbn [world_rand world_fs]. intros Hc.
  destruct (unmarshalConfig rawCfg) as [cfg| |];
    [|injection Hc as <- <-; by left..].
  destruct (checkImport cfg src) as [[]| |];
    [|injection Hc as <- <-; by left..].
  destruct (newWallet _ cfg) as [wl| |];
    [|injection Hc as <- <-; by left..].
  destruct (Seal _ passphrase r) as [[envelope| |] r2];
    cbn [wrap_err world_rand world_fs] in Hc;
    [|injection Hc as <- <-; by left..].
  destruct (json_Marshal_envelope envelope) as [raw| |];
    cbn [wrap_err world_rand world_fs] in Hc;
    [|injection Hc as <- <-; by left..].
  destruct (decide (getWalletFilename name ∈ fs_readonly fs));
    cbn [wrap_err] in Hc; injection Hc as <- <-; [by left|].
  right. by exists raw.
Qed.

(** X8.  [Create] and [Import] change no file but the wallet file of the
    name they are given: every other path holds what it held, whatever
    they return. *)
Theorem Create_Import_touch_one_file (name passphrase : string)
    (rawCfg : option (gmap string iface)) (w : World R) (path : string) :
  path <> getWalletFilename name ->
  (forall o w',
     Create name passphrase rawCfg w = (o, w') ->
     fs_files (world_fs w') !! path = fs_files (world_fs w) !! path) /\
  (forall src o w',
     Import name passphrase rawCfg src w = (o, w') ->
     fs_files (world_fs w') !! path = fs_files (world_fs w) !! path).
Proof.
  intros Hp. split.
  - intros o w' [-> | [raw ->]]%Create_files; [reflexivity|].
    cbn. by rewrite lookup_insert_ne.
  - intros src o w' [-> | [raw ->]]%Import_files; [reflexivity|].
    cbn. by rewrite lookup_insert_ne.
Qed.


(** What [Load] returns hangs on the files only through what is stored
    under the wallet's file name. *)
Lemma Load_by_lookup (name1 name2 passphrase : string)
    (rawCfg : option (gmap string iface)) (w1 w2 : World R) :
  fs_files (world_fs w1) !! getWalletFilename name1 =
    fs_files (world_fs w2) !! getWalletFilename name2 ->
  (Load name1 passphrase rawCfg w1).1 = (Load name2 passphrase rawCfg w2).1.
Proof.
  intros Hl.
  unfold Load, io_bind, io_pure, io_wrap_err, with_fs, ioutil_ReadFile.
  destruct (unmarshalConfig rawCfg) as [cfg| |]; [|reflexivity..].
  rewrite Hl.
  destruct (fs_files (world_fs w2) !! getWalletFilename name2);
    [|reflexivity].
  cbn [wrap_err].
  destruct (wrap_err _ (json_Unmarshal_envelope _)); [|reflexivity..].
  by destruct (Open _ passphrase).
Qed.

(** X11.  After a successful [Remove] the wallet file is gone, every other
    file is as it was, and [Load] of that name fails to load; [Remove] of a
    name with no file is an error that changes nothing. *)
Theorem Remove_then_Load (name : string)
    (rawCfg0 : option (gmap string iface)) (w : World R) :
  (forall w',
     Remove name rawCfg0 w = (Ok tt, w') ->
     fs_files (world_fs w') !! getWalletFilename name = None /\
     (forall path, path <> getWalletFilename name ->
        fs_files (world_fs w') !! path = fs_files (world_fs w) !! path) /\
     forall passphrase rawCfg cfg,
       unmarshalConfig rawCfg = Ok cfg ->
       Load name passphrase rawCfg w' =
         (Err (Errorw "failed to load wallet state: %w" []
                 (ErrIO "no such file or directory")), w')) /\
  (fs_files (world_fs w) !! getWalletFilename name = None ->
   Remove name rawCfg0 w = (Err (ErrIO "no such file or directory"), w)).
Proof.
  unfold Remove, with_fs, os_Remove. destruct w as [r fs].
  cbn [world_rand world_fs]. split.
  - intros w' Hr.
    destruct (fs_files fs !! getWalletFilename name); [|discriminate].
    destruct (decide (_ ∈ _)); [discriminate|]. injection Hr as <-.
    cbn [world_fs fs_files]. split; [apply lookup_delete_eq|].
    split; [intros path Hp; by apply lookup_delete_ne|].
    intros passphrase rawCfg cfg Hcfg.
    unfold Load, io_bind, io_pure, io_wrap_err, with_fs, ioutil_ReadFile.
    rewrite Hcfg. cbn [world_fs fs_files]. by rewrite lookup_delete_eq.
  - by intros ->.
Qed.

(** X12.  After a successful [Rename], [Load] of the new name returns what
    [Load] of the old name returned before, for every passphrase and
    configuration; and when the two file names differ the old name no
    longer loads. *)
Theorem Rename_then_Load (old new : string)
    (rawCfg0 : option (gmap string iface)) (w w' : World R) :
  Rename old new rawCfg0 w = (Ok tt, w') ->
  (forall passphrase rawCfg,
     (Load new passphrase rawCfg w').1 = (Load old passphrase rawCfg w).1) /\
  (getWalletFilename old <> getWalletFilename new ->
   forall passphrase rawCfg cfg,
     unmarshalConfig rawCfg = Ok cfg ->
     Load old passphrase rawCfg w' =
       (Err (Errorw "failed to load wallet state: %w" []
               (ErrIO "no such file or directory")), w')).
Proof.
  unfold Rename, with_fs, os_Rename. destruct w as [r fs].
  cbn [world_rand world_fs]. intros Hr.
  destruct (fs_files fs !! getWalletFilename old) as [data|] eqn:Hold;
    [|discriminate].
  destruct (decide (_ \/ _)); [discriminate|]. injection Hr as <-.
  split.
  - intros passphrase rawCfg. apply Load_by_lookup.
    cbn [world_fs fs_files]. by rewrite lookup_insert_eq, Hold.
  - intros Hne passphrase rawCfg cfg Hcfg.
    unfold Load, io_bind, io_pure, io_wrap_err, with_fs, ioutil_ReadFile.
    rewrite Hcfg. cbn [world_fs fs_files].
    by rewrite lookup_insert_ne, lookup_delete_eq by done.
Qed.
End FactoryFiles.

(** ** Algorithms, prompts and validators *)

Lemma append_cons (c : ascii) (s t : string) :
  String c s +:+ t = String c (s +:+ t).
Proof. reflexivity. Qed.

Lemma length_append (s t : string) :
  String.length (s +:+ t) = String.length s + String.length t.
Proof.
  induction s as [|c s IH]; [reflexivity|].
  rewrite append_cons. cbn [String.length]. by rewrite IH.
Qed.

Lemma append_inj_r (s1 s2 t : string) : s1 +:+ t = s2 +:+ t -> s1 = s2.
Proof.
  revert s2. induction s1 as [|c s1 IH]; intros [|d s2] Heq.
  - reflexivity.
  - apply (f_equal String.length) in Heq.
    rewrite !length_append in Heq. cbn in Heq. lia.
  - apply (f_equal String.length) in Heq.
    rewrite !length_append in Heq. cbn in Heq. lia.
  - rewrite !append_cons in Heq. injection Heq as -> Heq. f_equal.
    by apply IH.
Qed.

Lemma fmt_d_inj (n m : N) : fmt_d n = fmt_d m -> n = m.
Proof.
  unfold fmt_d. intros Heq. apply Unsigned.to_uint_inj.
  assert (Hs : Some (N.to_uint n) = Some (N.to_uint m))
    by (by rewrite <- !NilEmpty.usu, Heq).
  by injection Hs.
Qed.

Example fmt_d_zero : fmt_d 0 = "0".
Proof. reflexivity. Qed.
Example fmt_d_big : fmt_d 4294967295 = "4294967295".
Proof. reflexivity. Qed.
Example hex_decode_ok : hex_DecodeString "c0FfEe" = Ok [xc0; xff; xee].
Proof. reflexivity. Qed.
Example hex_decode_odd : hex_DecodeString "c0f" = Err hex_ErrLength.
Proof. reflexivity. Qed.
Example hex_decode_bad_before_odd :
  hex_DecodeString "c0g" = Err (hex_InvalidByteError "g").
Proof. reflexivity. Qed.
Example hex_decode_prefix : hex_DecodeString "0xc0" = Err (hex_InvalidByteError "x").
Proof. reflexivity. Qed.
Example trim_prefix_once :
  strings_TrimPrefix "0x0xc0" "0x" = "0xc0" /\ strings_TrimPrefix "c0" "0x" = "c0".
Proof. split; reflexivity. Qed.

(** [hex.DecodeString] succeeds exactly on an even number of hexadecimal
    digits, and gives half as many bytes. *)
Lemma hex_DecodeString_Ok_aux (n : nat) : forall s : string,
  String.length s <= n ->
  (exists bs, hex_DecodeString s = Ok bs) <->
  Nat.even (String.length s) = true /\
  Forall (fun c => is_Some (fromHexChar c)) (list_ascii_of_string s).
Proof.
  induction n as [|n IH]; intros s Hn.
  { destruct s; [|cbn in Hn; lia]. cbn. split; [auto | eauto]. }
  destruct s as [|p [|q r]].
  - cbn. split; [auto | eauto].
  - cbn. split.
    + intros [bs Hb]. destruct (fromHexChar p); discriminate.
    + intros [[=] _].
  - cbn [String.length] in Hn.
    specialize (IH r ltac:(lia)).
    cbn [hex_DecodeString String.length list_ascii_of_string Nat.even].
    rewrite !Forall_cons. split.
    + intros [bs Hb].
      destruct (fromHexChar p) as [a|]; [|discriminate].
      destruct (fromHexChar q) as [b|]; [|discriminate].
      destruct (hex_DecodeString r) as [rest| |]; [|discriminate..].
      destruct IH as [IH _]. destruct (IH ltac:(eauto)) as [He Hf].
      repeat split; eauto.
    + intros (He & [a Ha] & [b Hb] & Hf).
      rewrite Ha, Hb. destruct IH as [_ IH].
      destruct (IH (conj He Hf)) as [rest ->]. cbn. eauto.
Qed.

Lemma hex_DecodeString_Ok (s : string) :
  (exists bs, hex_DecodeString s = Ok bs) <->
  Nat.even (String.length s) = true /\
  Forall (fun c => is_Some (fromHexChar c)) (list_ascii_of_string s).
Proof. by apply (hex_DecodeString_Ok_aux (String.length s)). Qed.

Section Survey.
Context `{WalletTags, SignerLib, Argon2id, DeoxysII, JSONCodec,
          Mapstructure, Paths, Base64}.
Context {R T : Type} `{RandSource R, Bip39 R, Survey T}.

Lemma checkImport_supported (cfg : walletConfig) (src : ImportSource) :
  checkImport cfg src = Ok tt <->
  cfg_Algorithm cfg ∈ SupportedAlgorithmsForImport (Some (src_Kind src)).
Proof.
  unfold checkImport, SupportedAlgorithmsForImport.
  repeat case_decide;
    rewrite ?elem_of_cons, ?elem_of_nil; split; try done; try tauto.
Qed.

(** X13.  [Import] accepts a configuration for an import source exactly
    when its algorithm is one that [SupportedAlgorithmsForImport] lists
    for the kind of the source, so every algorithm the survey offers for a
    kind passes the check of [Import]; a successful [Import] had such a
    kind and algorithm. *)
Theorem Import_accepts_supported :
  (forall cfg src,
     checkImport cfg src = Ok tt <->
     cfg_Algorithm cfg ∈ SupportedAlgorithmsForImport (Some (src_Kind src))) /\
  (forall kind q message options alg number data,
     q ∈ surveyQuestions (Some kind) ->
     q_Prompt q = survey_Select message options ->
     alg ∈ options ->
     checkImport {| cfg_Algorithm := alg; cfg_Number := number |}
                 {| src_Kind := kind; src_Data := data |} = Ok tt) /\
  (forall name passphrase rawCfg src (w w' : World R) wallet,
     Import name passphrase rawCfg src w = (Ok wallet, w') ->
     src_Kind src ∈ SupportedImportKinds /\
     cfg_Algorithm (w_cfg wallet) ∈
       SupportedAlgorithmsForImport (Some (src_Kind src))).
Proof.
  split; [exact checkImport_supported|]. split.
  - intros kind q message options alg number data Hq Hp Ha.
    apply checkImport_supported. cbn [cfg_Algorithm src_Kind].
    unfold surveyQuestions in Hq.
    assert (Hq' : q = {| q_Name := "algorithm";
                         q_Prompt := survey_Select "Algorithm:"
                           (SupportedAlgorithmsForImport (Some kind)) |}).
    { case_decide; rewrite ?elem_of_app, !elem_of_cons, !elem_of_nil in Hq;
        destruct Hq as [Hq|Hq]; try destruct Hq as [Hq|Hq]; try done.
      subst q. discriminate. }
    subst q. cbn in Hp. by injection Hp as _ <-.
  - intros name passphrase rawCfg src w w' wallet Hi.
    unfold Import, io_bind, io_pure in Hi.
    destruct (unmarshalConfig rawCfg) as [cfg| |]; [|discriminate..].
    destruct (checkImport cfg src) as [[]| |] eqn:Hck; [|discriminate..].
    destruct (newWallet _ cfg) as [wl| |] eqn:Hw; [|discriminate..].
    apply newWallet_inv in Hw as (Hc & _ & _).
    assert (wl = wallet) as ->.
    { destruct (io_wrap_err _ (with_rand _) w) as [[env| |] w1];
        [|discriminate..].
      destruct (wrap_err _ (json_Marshal_envelope env)) as [raw| |];
        [|discriminate..].
      destruct (io_wrap_err _ (with_fs _) w1) as [[[]| |] w2];
        [|discriminate..].
      unfold io_ret in Hi. by injection Hi. }
    rewrite Hc. split; [|by apply checkImport_supported].
    unfold SupportedImportKinds. unfold checkImport in Hck.
    rewrite !elem_of_cons. repeat case_decide; try discriminate; auto.
Qed.

(** X14.  The algorithms that [SupportedAlgorithmsForImport] lists for no
    kind are those listed for the mnemonic kind together with those listed
    for the private-key kind, and they are exactly the algorithms on which
    [newWallet] does not give the not-supported error. *)
Theorem newWallet_supported_algorithms `{!WalletTagsLaws} (alg : string) :
  (alg ∈ SupportedAlgorithmsForImport None <->
   alg ∈ SupportedAlgorithmsForImport (Some ImportKindMnemonic) \/
   alg ∈ SupportedAlgorithmsForImport (Some ImportKindPrivateKey)) /\
  (forall data cfg,
     alg ∉ SupportedAlgorithmsForImport None <->
     newWallet {| Algorithm := alg; Data := data |} cfg =
       Err (Errorf "algorithm '%s' not supported" [alg])).
Proof.
  pose proof import_kinds_distinct as Hk. split.
  - unfold SupportedAlgorithmsForImport.
    rewrite decide_True by reflexivity.
    rewrite decide_False by congruence. rewrite decide_True by reflexivity.
    rewrite !elem_of_cons, !elem_of_nil. tauto.
  - intros data cfg. unfold SupportedAlgorithmsForImport, newWallet.
    cbn [Algorithm Data]. rewrite !not_elem_of_cons.
    repeat case_decide.
    + split; [tauto|]. destruct sakg_GetAccountSigner; discriminate.
    + split; [tauto|]. destruct ed25519raw_unmarshalBase64; discriminate.
    + split; [tauto|]. destruct Secp256k1FromMnemonic; discriminate.
    + split; [tauto|]. destruct Secp256k1FromHex; discriminate.
    + split; [reflexivity|]. intros _. repeat split; try done.
      apply not_elem_of_nil.
Qed.
End Survey.

Section Facade.
Context `{WalletTags, SignerLib, Argon2id, DeoxysII, JSONCodec,
          Mapstructure, Paths, Base64}.
Context {R T : Type} `{RandSource R, Bip39 R, Survey T}.

(** The address spec of a wallet whose configuration names the algorithm of
    its state. *)
Lemma SignatureAddressSpec_newWallet `{!WalletTagsLaws}
    (state : secretState) (cfg : walletConfig) (w : fileWallet) :
  newWallet state cfg = Ok w ->
  cfg_Algorithm cfg = Algorithm state ->
  (exists inner,
     w_signer w = Ed25519Wrapped inner /\
     SignatureAddressSpec w = Ok (SpecEd25519 (ed25519_Public inner)) /\
     Address w = types_NewAddress (SpecEd25519 (ed25519_Public inner))) \/
  (exists k,
     w_signer w = Secp256k1 k /\
     SignatureAddressSpec w = Ok (SpecSecp256k1Eth (secp256k1_Public k)) /\
     Address w = types_NewAddress (SpecSecp256k1Eth (secp256k1_Public k))).
Proof.
  intros Hw Ha. pose proof tags_ne as (? & ? & ? & ? & ? & ?).
  apply newWallet_inv in Hw as (Hc & _ & Hw).
  unfold Address, SignatureAddressSpec, Signer. rewrite Hc, Ha.
  destruct Hw as [[Hed [inner ->]] | [(Hn1 & Hn2 & Hsecp) [k ->]]].
  - left. exists inner. by rewrite decide_True.
  - right. exists k. rewrite decide_False by tauto. by rewrite decide_True.
Qed.

(** X15.  A wallet whose configuration names the algorithm of its state has
    an address spec of the family of its signer, with the signer's public
    key: the two type assertions in [SignatureAddressSpec] do not panic and
    the spec is not the empty one.  That is so for every wallet that
    [Create] or [Import] returns. *)
Theorem SignatureAddressSpec_of_own_algorithm `{!WalletTagsLaws} :
  (forall state cfg w,
     newWallet state cfg = Ok w ->
     cfg_Algorithm cfg = Algorithm state ->
     SignatureAddressSpec w =
       Ok (match w_signer w with
           | Ed25519Wrapped inner => SpecEd25519 (ed25519_Public inner)
           | Secp256k1 k => SpecSecp256k1Eth (secp256k1_Public k)
           end)) /\
  (forall name passphrase rawCfg src (w w' : World R) wallet,
     Import name passphrase rawCfg src w = (Ok wallet, w') ->
     exists spec, SignatureAddressSpec wallet = Ok spec /\ spec <> SpecEmpty) /\
  (forall name passphrase rawCfg (w w' : World R) wallet,
     Create name passphrase rawCfg w = (Ok wallet, w') ->
     exists spec, SignatureAddressSpec wallet = Ok spec /\ spec <> SpecEmpty).
Proof.
  assert (Hnew : forall state cfg w,
     newWallet state cfg = Ok w ->
     cfg_Algorithm cfg = Algorithm state ->
     SignatureAddressSpec w =
       Ok (match w_signer w with
           | Ed25519Wrapped inner => SpecEd25519 (ed25519_Public inner)
           | Secp256k1 k => SpecSecp256k1Eth (secp256k1_Public k)
           end)).
  { intros state cfg w Hw Ha.
    destruct (SignatureAddressSpec_newWallet _ _ _ Hw Ha)
      as [(inner & -> & -> & _) | (k & -> & -> & _)]; reflexivity. }
  split; [exact Hnew|]. split.
  - intros name passphrase rawCfg src w w' wallet
      (cfg & _ & Hw)%Import_newWallet.
    rewrite (Hnew _ _ _ Hw eq_refl). eexists. split; [reflexivity|].
    by destruct (w_signer wallet).
  - intros name passphrase rawCfg w w' wallet
      (cfg & mnemonic & _ & Hw)%Create_newWallet.
    rewrite (Hnew _ _ _ Hw eq_refl). eexists. split; [reflexivity|].
    by destruct (w_signer wallet).
Qed.

(** X16.  A wallet that [newWallet] builds from a state of one key family
    and a configuration that names an algorithm of the other makes
    [SignatureAddressSpec] and [Address] panic in the type assertion on the
    public key. *)
Theorem SignatureAddressSpec_other_family_panics `{!WalletTagsLaws}
    (state : secretState) (cfg : walletConfig) (w : fileWallet) :
  newWallet state cfg = Ok w ->
  ((Algorithm state = AlgorithmEd25519Adr8 \/
    Algorithm state = AlgorithmEd25519Raw) /\
   (cfg_Algorithm cfg = AlgorithmSecp256k1Bip44 \/
    cfg_Algorithm cfg = AlgorithmSecp256k1Raw)) \/
  ((Algorithm state = AlgorithmSecp256k1Bip44 \/
    Algorithm state = AlgorithmSecp256k1Raw) /\
   (cfg_Algorithm cfg = AlgorithmEd25519Adr8 \/
    cfg_Algorithm cfg = AlgorithmEd25519Raw)) ->
  SignatureAddressSpec w = Panic "interface conversion" /\
  Address w = Panic "interface conversion".
Proof.
  intros Hw Hcase. pose proof tags_ne as (? & ? & ? & ? & ? & ?).
  apply newWallet_inv in Hw as (Hc & _ & Hw).
  unfold Address, SignatureAddressSpec, Signer. rewrite Hc.
  destruct Hw as [[Hed [inner ->]] | [(Hn1 & Hn2 & Hsecp) [k ->]]];
    destruct Hcase as [[Hs Hcfg] | [Hs Hcfg]];
    try (exfalso; destruct Hs, Hed; congruence);
    try (exfalso; destruct Hs; congruence).
  - rewrite decide_False by (destruct Hcfg; intros []; congruence).
    by rewrite decide_True.
  - by rewrite decide_True.
Qed.

(** X17.  [PrettyKind] shows the key number for the two derivation
    algorithms, where two configurations of one algorithm print alike only
    if their numbers are equal, and leaves it out for every other
    algorithm, where the number makes no difference; a configuration that
    does not decode prints as the empty string. *)
Theorem PrettyKind_number
    (raw1 raw2 : option (gmap string iface)) (alg : string) (n1 n2 : N) :
  unmarshalConfig raw1 = Ok {| cfg_Algorithm := alg; cfg_Number := n1 |} ->
  unmarshalConfig raw2 = Ok {| cfg_Algorithm := alg; cfg_Number := n2 |} ->
  (alg = AlgorithmEd25519Adr8 \/ alg = AlgorithmSecp256k1Bip44 ->
   PrettyKind raw1 = Ok ("file (" +:+ alg +:+ ":" +:+ fmt_d n1 +:+ ")") /\
   (PrettyKind raw1 = PrettyKind raw2 -> n1 = n2)) /\
  (~ (alg = AlgorithmEd25519Adr8 \/ alg = AlgorithmSecp256k1Bip44) ->
   PrettyKind raw1 = Ok ("file (" +:+ alg +:+ ")") /\
   PrettyKind raw1 = PrettyKind raw2) /\
  (forall raw err, unmarshalConfig raw = Err err -> PrettyKind raw = Ok "").
Proof.
  intros Hc1 Hc2. unfold PrettyKind. rewrite Hc1, Hc2.
  cbn [cfg_Algorithm cfg_Number]. split; [|split].
  - intros Ha. rewrite !decide_True by assumption. split; [reflexivity|].
    intros [= Heq].
    repeat apply (inj (String.append _)) in Heq.
    apply append_inj_r in Heq.
    apply (inj (String.append _)) in Heq. by apply fmt_d_inj.
  - intros Ha. by rewrite !decide_False by assumption.
  - by intros raw err ->.
Qed.
End Facade.

Section Validators.
Context `{WalletTags, Mapstructure, Base64}.

(** X18.  Under Secp256k1-Raw the validator of a private key accepts a
    string exactly when, one leading ["0x"] taken off, it is an even number
    of hexadecimal digits; what it rejects it rejects with the
    must-be-hex-encoded error. *)
Theorem DataValidator_secp256k1_hex `{!WalletTagsLaws}
    (rawCfg : option (gmap string iface)) (cfg : walletConfig) (s : string) :
  unmarshalConfig rawCfg = Ok cfg ->
  cfg_Algorithm cfg = AlgorithmSecp256k1Raw ->
  (DataValidator ImportKindPrivateKey rawCfg (IString s) = Ok tt <->
   Nat.even (String.length (strings_TrimPrefix s "0x")) = true /\
   Forall (fun c => is_Some (fromHexChar c))
          (list_ascii_of_string (strings_TrimPrefix s "0x"))) /\
  (forall err,
     DataValidator ImportKindPrivateKey rawCfg (IString s) = Err err ->
     exists cause,
       err = Errorw "private key must be hex-encoded: %w" [] cause).
Proof.
  intros Hcfg Ha. pose proof import_kinds_distinct as Hk.
  pose proof tags_ne as (_ & _ & _ & _ & Hne & _).
  unfold DataValidator. rewrite decide_False by congruence.
  rewrite decide_True by reflexivity. rewrite Hcfg, Ha.
  rewrite decide_False by congruence. rewrite decide_True by reflexivity.
  cbn [assert_string mbind outcome_bind].
  rewrite <- hex_DecodeString_Ok.
  destruct (hex_DecodeString (strings_TrimPrefix s "0x")) as [bs|e|m];
    cbn [wrap_err mbind outcome_bind].
  - split; [split; eauto | intros ? [=]].
  - split; [split; [intros [=] | intros [? [=]]] | intros ? [= <-]; eauto].
  - split; [split; [intros [=] | intros [? [=]]] | intros ? [=]].
Qed.

(** X19.  For a configuration that decodes: when its algorithm is listed
    for the import kind there is a prompt for the data and the validator
    never answers with an unsupported-kind or unsupported-algorithm error;
    for the private-key kind and an algorithm not listed there is no prompt
    and the validator rejects every answer as an unsupported algorithm;
    for a kind that is not supported there is no prompt and every answer is
    rejected as an unsupported kind. *)
Theorem DataPrompt_of_supported `{!WalletTagsLaws}
    (kind : string) (rawCfg : option (gmap string iface)) (cfg : walletConfig) :
  unmarshalConfig rawCfg = Ok cfg ->
  (cfg_Algorithm cfg ∈ SupportedAlgorithmsForImport (Some kind) ->
   (exists prompt, DataPrompt kind rawCfg = Ok (Some prompt)) /\
   forall ans format args,
     DataValidator kind rawCfg ans <> Err (Errorf format args)) /\
  (kind = ImportKindPrivateKey ->
   cfg_Algorithm cfg ∉ SupportedAlgorithmsForImport (Some kind) ->
   DataPrompt kind rawCfg = Ok None /\
   forall ans,
     DataValidator kind rawCfg ans =
       Err (Errorf "unsupported algorithm for %s: %s"
                   [ImportKindPrivateKey; cfg_Algorithm cfg])) /\
  (kind ∉ SupportedImportKinds ->
   DataPrompt kind rawCfg = Ok None /\
   forall ans,
     DataValidator kind rawCfg ans =
       Err (Errorf "unsupported import kind: %s" [kind])).
Proof.
  intros Hcfg. pose proof import_kinds_distinct as Hk.
  pose proof tags_ne as (_ & _ & _ & _ & Hne & _).
  unfold DataPrompt, DataValidator, SupportedAlgorithmsForImport,
    SupportedImportKinds.
  rewrite Hcfg. destruct cfg as [alg number]. cbn [cfg_Algorithm].
  split; [|split].
  - destruct (decide (kind = ImportKindMnemonic)) as [->|Hm].
    { intros _. split; [eauto | intros ? ? ? [=]]. }
    destruct (decide (kind = ImportKindPrivateKey)) as [->|Hp];
      [|by intros ?%elem_of_nil].
    rewrite !elem_of_cons, elem_of_nil. intros [-> | [-> | []]].
    + split; [rewrite decide_True by reflexivity; eauto|].
      intros ans format args. rewrite decide_True by reflexivity.
      destruct ans as [a| |];
        cbn [assert_string mbind outcome_bind]; [|intros [=]..].
      destruct (base64_DecodeString a); cbn [wrap_err mbind outcome_bind];
        congruence.
    + split.
      { rewrite decide_False by congruence.
        rewrite decide_True by reflexivity. eauto. }
      intros ans format args. rewrite decide_False by congruence.
      rewrite decide_True by reflexivity.
      destruct ans as [a| |];
        cbn [assert_string mbind outcome_bind]; [|intros [=]..].
      destruct (hex_DecodeString _); cbn [wrap_err mbind outcome_bind];
        congruence.
  - intros -> Hnot.
    repeat case_decide; try congruence; try done;
      exfalso; apply Hnot; rewrite !elem_of_cons; auto.
  - rewrite !not_elem_of_cons. intros (? & ? & _).
    by repeat case_decide.
Qed.

(** X20.  A mnemonic is not validated at the prompt: for the mnemonic kind
    the validator accepts every answer under every configuration.  For the
    private-key kind and a configuration that does not decode it also
    accepts every answer, although [DataPrompt] has no prompt there. *)
Theorem DataValidator_unchecked `{!WalletTagsLaws} :
  (forall rawCfg ans, DataValidator ImportKindMnemonic rawCfg ans = Ok tt) /\
  (forall rawCfg ans err,
     unmarshalConfig rawCfg = Err err ->
     DataValidator ImportKindPrivateKey rawCfg ans = Ok tt /\
     DataPrompt ImportKindPrivateKey rawCfg = Ok None).
Proof.
  pose proof import_kinds_distinct as Hk. split.
  - intros rawCfg ans. unfold DataValidator. by rewrite decide_True.
  - intros rawCfg ans err Hcfg. unfold DataValidator, DataPrompt.
    rewrite Hcfg. by repeat case_decide; try congruence.
Qed.
End Validators.

(** ** Building with cargo *)

Module CargoFacts.
Import Cargo.

Lemma kind_is_bin (kind : list string) :
  ~ (length kind <> 1 \/ kind !! 0 <> Some "bin") <-> kind = ["bin"].
Proof.
  split.
  - intros Hn. destruct kind as [|k [|k' kind]]; cbn in Hn.
    + exfalso. apply Hn. left. lia.
    + destruct (decide (k = "bin")) as [->|Hk]; [reflexivity|].
      exfalso. apply Hn. right. congruence.
    + exfalso. apply Hn. left. lia.
  - intros -> [Hn | Hn]; cbn in Hn; [lia | congruence].
Qed.

Lemma buildStep_spec (executable : string) (printed : list string)
    (output : buildOutput) :
  buildStep (executable, printed) output =
    (if decide (isBinArtifact output) then Executable output else executable,
     printed ++ option_list (printedLine output)).
Proof.
  unfold buildStep, printedLine, isBinArtifact.
  destruct (decide (Reason output = "compiler-message")) as [Hm|Hm].
  { rewrite decide_False; [reflexivity|]. intros [Hr _]. congruence. }
  destruct (decide (Reason output = "compiler-artifact")) as [Ha|Ha].
  - destruct (decide (_ \/ _)) as [Hk|Hk].
    + rewrite decide_False; [reflexivity|].
      intros [_ Hb]. by apply kind_is_bin in Hk.
    + rewrite decide_True; [reflexivity|]. split; [done|].
      by apply kind_is_bin.
  - rewrite decide_False by (intros [? _]; done).
    cbn. by rewrite app_nil_r.
Qed.

Lemma fold_buildStep (msgs : list buildOutput) (executable : string)
    (printed : list string) :
  fold_left buildStep msgs (executable, printed) =
    (match last (filter isBinArtifact msgs) with
     | Some m => Executable m
     | None => executable
     end,
     printed ++ omap printedLine msgs).
Proof.
  induction msgs as [|m msgs IH] using rev_ind.
  { cbn. by rewrite app_nil_r. }
  rewrite fold_left_app, IH. cbn [fold_left]. rewrite buildStep_spec.
  rewrite filter_app, omap_app, filter_cons, filter_nil. cbn [omap].
  rewrite app_assoc. f_equal.
  destruct (decide (isBinArtifact m)).
  - by rewrite last_snoc.
  - by rewrite app_nil_r.
Qed.

Section Build.
Context `{Exec}.

(** X21.  When the cargo process starts and exits without error, [Build]
    returns an executable exactly when the last message that reports a
    binary names a non-empty one, and that one is what it returns; a later
    binary message with an empty executable, or no binary message at all,
    gives the no-executable error. *)
Theorem Build_returns_last_binary (release : bool) (target : string)
    (features : option (list string)) :
  let cmd := exec_Command "cargo" (buildArgs release target features) in
  pipe_err cmd = None -> start_err cmd = None -> wait_err cmd = None ->
  (forall exe,
     (Build release target features).1 = Ok exe <->
     exe <> "" /\
     exists m, last (filter isBinArtifact (outputs cmd)) = Some m /\
               Executable m = exe) /\
  ((forall m, last (filter isBinArtifact (outputs cmd)) = Some m ->
              Executable m = "") ->
   (Build release target features).1 =
     Err (Errorf "no executable generated" [])).
Proof.
  cbn zeta. intros Hp Hs Hw. unfold Build. rewrite Hp, Hs, Hw.
  rewrite fold_buildStep.
  destruct (last (filter isBinArtifact _)) as [m|].
  - split.
    + intros exe. destruct (decide (Executable m = "")) as [He|He]; cbn.
      * split; [intros [=]|]. intros (Hne & m' & [= <-] & <-). done.
      * split; [intros [= <-]; eauto|]. by intros (_ & m' & [= <-] & <-).
    + intros Hall. by rewrite decide_True by auto.
  - split.
    + intros exe. rewrite decide_True by reflexivity. cbn.
      split; [intros [=] | intros (_ & m & [=] & _)].
    + intros _. by rewrite decide_True.
Qed.

(** X22.  Once the process has started, [Build] prints one line for every
    compiler message and one for every artifact, of whatever kind, in the
    order they came, whether or not the process then fails; and a failing
    exit makes [Build] return the build-failed error with the standard
    error text even when a binary was reported. *)
Theorem Build_prints_and_exit (release : bool) (target : string)
    (features : option (list string)) :
  let cmd := exec_Command "cargo" (buildArgs release target features) in
  pipe_err cmd = None -> start_err cmd = None ->
  (Build release target features).2 = omap printedLine (outputs cmd) /\
  (forall err,
     wait_err cmd = Some err ->
     (Build release target features).1 =
       Err (Errorw ("build process failed: %w" +:+ nl +:+
                    "Standard error output:" +:+ nl +:+ "%s")
                   [stderr cmd] err)).
Proof.
  cbn zeta. intros Hp Hs. unfold Build. rewrite Hp, Hs, fold_buildStep.
  split.
  - destruct (wait_err _); [reflexivity|]. by destruct (decide _).
  - by intros err ->.
Qed.
End Build.
End CargoFacts.

(** ** Runs of the further properties on the reference implementation *)

Section MoreRuns.
Existing Instances Ref.rand Ref.argon2 Ref.deoxys Ref2.json Ref.tags
  Ref.signers Ref.decode Ref.bip39 Ref.paths Ref2.base64 Ref2.survey.
Existing Instances RefFacts.rand_laws RefFacts.argon2_laws
  RefFacts.deoxys_laws Ref2Facts.json2_laws Ref2Facts.json_envelope_laws
  RefFacts.tags_laws.

(** With 64 bytes on the tape [Seal] succeeds; with 40 the second read
    fails and [Seal] returns its error. *)
Lemma Seal_fails_only_with_rand_witness :
  (exists e, Seal Ref.sample_state "hunter2" (Ref.tape 64) = (Ok e, [])) /\
  rand_Read 32 (drop 32 (Ref.tape 40)) =
    (Err (ErrRand "entropy source exhausted"), drop 32 (Ref.tape 40)).
Proof.
  destruct (Seal_fails_only_with_rand Ref.sample_state "hunter2" (Ref.tape 64))
    as [Hok _].
  destruct (Seal_fails_only_with_rand Ref.sample_state "hunter2" (Ref.tape 40))
    as [_ Herr].
  split.
  - eapply (Hok (take 32 (Ref.tape 64)) (drop 32 (Ref.tape 64))
                (drop 32 (Ref.tape 64)) []); vm_compute; reflexivity.
  - destruct (Herr (ErrRand "entropy source exhausted")
                   (drop 32 (Ref.tape 40)) ltac:(vm_compute; reflexivity))
      as [Hfirst | (nonce & r1 & Hn & Hs)].
    + vm_compute in Hfirst. discriminate.
    + vm_compute in Hn. injection Hn as <- <-. exact Hs.
Defined.

(** The garbled envelope gives an error of [json.Unmarshal]. *)
Lemma Open_outcomes_witness :
  exists msg, Open Ref.garbled "hunter2" = Err (ErrJSON msg).
Proof.
  destruct (Open_outcomes Ref.garbled "hunter2")
    as [[[s Hs] | [Hu | [Ha | [Hj | [msg Hp]]]]] _].
  - vm_compute in Hs. discriminate.
  - vm_compute in Hu. discriminate.
  - vm_compute in Ha. discriminate.
  - exact Hj.
  - vm_compute in Hp. discriminate.
Defined.

(** An envelope with time 0, stored as the file of alice. *)
Lemma Open_zero_cost_panics_witness :
  let k := {| Salt := Ref.tape 32; Time := 0; Memory := 65536; Threads := 4 |} in
  let e := {| env_KDF := {| Argon2 := Some k |};
              env_Nonce := Ref.tape 32; env_Data := [x01; x02] |} in
  let w := mkWorld (Ref.tape 0)
             {| fs_files := {[ getWalletFilename "alice" :=
                                 Ref2.marshal_envelope e ]};
                fs_readonly := ∅ |} in
  exists msg,
    Open e "hunter2" = Panic msg /\
    Load "alice" "hunter2" (Ref.raw_config "ed25519-raw" 0) w = (Panic msg, w).
Proof.
  cbv zeta.
  edestruct (Open_zero_cost_panics (R := list byte)
    {| env_KDF := {| Argon2 := Some {| Salt := Ref.tape 32; Time := 0;
                                       Memory := 65536; Threads := 4 |} |};
       env_Nonce := Ref.tape 32; env_Data := [x01; x02] |}
    {| Salt := Ref.tape 32; Time := 0; Memory := 65536; Threads := 4 |}
    "hunter2") as (msg & Ho & Hl); [reflexivity | by left |].
  exists msg. split; [exact Ho|].
  eapply Hl; vm_compute; reflexivity.
Defined.

(** [Load] of a name with no file, with an envelope that has no Argon2
    descriptor, and with no configuration. *)
Lemma Load_errors_witness :
  let e := {| env_KDF := {| Argon2 := None |};
              env_Nonce := Ref.tape 32; env_Data := [x01; x02] |} in
  let w := mkWorld (Ref.tape 0)
             {| fs_files := {[ getWalletFilename "alice" :=
                                 Ref2.marshal_envelope e ]};
                fs_readonly := ∅ |} in
  Load "alice" "hunter2" None w = (Err (Errorf "missing configuration" []), w) /\
  Load "bob" "hunter2" (Ref.raw_config "ed25519-raw" 0) w =
    (Err (Errorw "failed to load wallet state: %w" []
            (ErrIO "no such file or directory")), w) /\
  Load "alice" "hunter2" (Ref.raw_config "ed25519-raw" 0) w =
    (Err (Errorf "failed to open wallet state (maybe incorrect passphrase?)" []),
     w).
Proof.
  cbv zeta.
  set (w := mkWorld (Ref.tape 0) _).
  destruct (Load_errors "alice" "hunter2" w) as [Hnil Halice].
  destruct (Load_errors "bob" "hunter2" w) as [_ Hbob].
  destruct (Halice (Ref.raw_config "ed25519-raw" 0) _ eq_refl)
    as (_ & _ & _ & Hkdf).
  destruct (Hbob (Ref.raw_config "ed25519-raw" 0) _ eq_refl)
    as (Hmissing & _).
  split; [exact Hnil|]. split.
  - apply Hmissing. vm_compute. reflexivity.
  - eapply Hkdf; vm_compute; reflexivity.
Defined.

(** A wallet created under Ed25519-ADR8 and loaded again. *)
Lemma Create_then_Load_witness :
  exists wallet w',
    Create "bob" "hunter2" (Ref.raw_config "ed25519-adr8" 0)
           (Ref.empty_world 96) = (Ok wallet, w') /\
    Load "bob" "hunter2" (Ref.raw_config "ed25519-adr8" 0) w' = (Ok wallet, w').
Proof.
  eexists _, _. split; [vm_compute; reflexivity|].
  eapply (Create_then_Load "bob" "hunter2" (Ref.raw_config "ed25519-adr8" 0)
            (Ref.empty_world 96)); vm_compute; reflexivity.
Defined.

(** The sample key imported and loaded again. *)
Lemma Import_then_Load_witness :
  exists wallet w' loaded,
    Import "alice" "hunter2" (Ref.raw_config "ed25519-raw" 0)
           {| src_Kind := "private key"; src_Data := Data Ref.sample_state |}
           (Ref.empty_world 64) = (Ok wallet, w') /\
    Load "alice" "hunter2" (Ref.raw_config "ed25519-raw" 0) w' = (Ok loaded, w') /\
    loaded = wallet /\ UnsafeExport loaded = Data Ref.sample_state.
Proof.
  edestruct (Import_then_Load "alice" "hunter2" (Ref.raw_config "ed25519-raw" 0)
            {| src_Kind := "private key"; src_Data := Data Ref.sample_state |}
            (Ref.empty_world 64)) as (loaded & Hl);
    [vm_compute; reflexivity..|].
  eexists _, _, loaded. split; [vm_compute; reflexivity|]. exact Hl.
Defined.
(** A file of carol is untouched when bob's wallet is created. *)
Lemma Create_Import_touch_one_file_witness :
  let w := mkWorld (Ref.tape 96)
             {| fs_files := {[ getWalletFilename "carol" := [x01; x02] ]};
                fs_readonly := ∅ |} in
  exists wallet w',
    Create "bob" "hunter2" (Ref.raw_config "ed25519-adr8" 0) w = (Ok wallet, w') /\
    fs_files (world_fs w') !! getWalletFilename "carol" = Some [x01; x02].
Proof.
  cbv zeta. set (w := mkWorld (Ref.tape 96) _).
  destruct (Create_Import_touch_one_file "bob" "hunter2"
              (Ref.raw_config "ed25519-adr8" 0) w (getWalletFilename "carol"))
    as [Hcreate _]; [vm_compute; discriminate|].
  eexists _, _. split; [vm_compute; reflexivity|].
  erewrite Hcreate; [|vm_compute; reflexivity].
  vm_compute. reflexivity.
Defined.


(** The imported wallet of alice removed; a second removal fails. *)
Lemma Remove_then_Load_witness :
  let w1 := (Import "alice" "hunter2" (Ref.raw_config "ed25519-raw" 0)
               {| src_Kind := "private key"; src_Data := Data Ref.sample_state |}
               (Ref.empty_world 64)).2 in
  let w2 := (Remove "alice" None w1).2 in
  (Remove "alice" None w1).1 = Ok tt /\
  fs_files (world_fs w2) !! getWalletFilename "alice" = None /\
  Load "alice" "hunter2" (Ref.raw_config "ed25519-raw" 0) w2 =
    (Err (Errorw "failed to load wallet state: %w" []
            (ErrIO "no such file or directory")), w2) /\
  Remove "alice" None w2 = (Err (ErrIO "no such file or directory"), w2).
Proof.
  intros w1 w2.
  assert (Hr : Remove "alice" None w1 = (Ok tt, w2))
    by (vm_compute; reflexivity).
  destruct (Remove_then_Load "alice" None w1) as [Hgone _].
  destruct (Remove_then_Load "alice" None w2) as [_ Hagain].
  destruct (Hgone w2 Hr) as (Hnone & _ & Hload).
  split; [by rewrite Hr|]. split; [exact Hnone|].
  split; [by eapply Hload | by apply Hagain].
Defined.

(** The imported wallet of alice renamed to carol. *)
Lemma Rename_then_Load_witness :
  let w1 := (Import "alice" "hunter2" (Ref.raw_config "ed25519-raw" 0)
               {| src_Kind := "private key"; src_Data := Data Ref.sample_state |}
               (Ref.empty_world 64)).2 in
  let w2 := (Rename "alice" "carol" None w1).2 in
  (Rename "alice" "carol" None w1).1 = Ok tt /\
  (Load "carol" "hunter2" (Ref.raw_config "ed25519-raw" 0) w2).1 =
    (Load "alice" "hunter2" (Ref.raw_config "ed25519-raw" 0) w1).1 /\
  Load "alice" "hunter2" (Ref.raw_config "ed25519-raw" 0) w2 =
    (Err (Errorw "failed to load wallet state: %w" []
            (ErrIO "no such file or directory")), w2).
Proof.
  intros w1 w2.
  assert (Hr : Rename "alice" "carol" None w1 = (Ok tt, w2))
    by (vm_compute; reflexivity).
  destruct (Rename_then_Load "alice" "carol" None w1 w2 Hr) as [Hnew Hold].
  split; [by rewrite Hr|]. split; [apply Hnew|].
  eapply Hold; [|reflexivity].
  apply (bool_decide_unpack (_ <> _)). vm_compute. reflexivity.
Defined.

(** The survey for a private key offers Secp256k1-Raw, and [Import] takes
    it. *)
Lemma Import_accepts_supported_witness :
  checkImport {| cfg_Algorithm := "secp256k1-raw"; cfg_Number := 0 |}
              {| src_Kind := "private key"; src_Data := "c0ffee" |} = Ok tt.
Proof.
  destruct (Import_accepts_supported (R := list byte)) as (_ & Hsurvey & _).
  eapply (Hsurvey "private key"
            {| q_Name := "algorithm";
               q_Prompt := survey_Select "Algorithm:"
                             ["ed25519-raw"; "secp256k1-raw"] |}
            "Algorithm:" ["ed25519-raw"; "secp256k1-raw"]).
  - vm_compute. constructor.
  - reflexivity.
  - apply (bool_decide_unpack (_ ∈ _)). vm_compute. reflexivity.
Defined.

(** An algorithm that is not listed. *)
Lemma newWallet_supported_algorithms_witness :
  newWallet {| Algorithm := "dsa"; Data := "c0ffee" |}
            {| cfg_Algorithm := "dsa"; cfg_Number := 0 |} =
    Err (Errorf "algorithm '%s' not supported" ["dsa"]) /\
  ("dsa" ∉ SupportedAlgorithmsForImport None).
Proof.
  destruct (newWallet_supported_algorithms "dsa") as [_ Hnew].
  split; [reflexivity|].
  eapply (Hnew "c0ffee" {| cfg_Algorithm := "dsa"; cfg_Number := 0 |}).
  reflexivity.
Defined.

(** The address spec of the sample Ed25519-Raw wallet. *)
Lemma SignatureAddressSpec_of_own_algorithm_witness :
  exists w inner,
    newWallet Ref.sample_state
      {| cfg_Algorithm := "ed25519-raw"; cfg_Number := 0 |} = Ok w /\
    w_signer w = Ed25519Wrapped inner /\
    SignatureAddressSpec w = Ok (SpecEd25519 (ed25519_Public inner)).
Proof.
  destruct (SignatureAddressSpec_of_own_algorithm (R := list byte))
    as (Hnew & _ & _).
  assert (Hw : newWallet Ref.sample_state
                 {| cfg_Algorithm := "ed25519-raw"; cfg_Number := 0 |} =
               Ok {| w_cfg := {| cfg_Algorithm := "ed25519-raw";
                                 cfg_Number := 0 |};
                     w_state := Ref.sample_state;
                     w_signer := Ed25519Wrapped
                       ("ed25519:" +:+ Data Ref.sample_state) |})
    by (vm_compute; reflexivity).
  eexists _, _. split; [exact Hw|]. split; [reflexivity|].
  by rewrite (Hnew _ _ _ Hw eq_refl).
Defined.

(** The sample Ed25519-Raw state under a Secp256k1-Raw configuration. *)
Lemma SignatureAddressSpec_other_family_panics_witness :
  exists w,
    newWallet Ref.sample_state
      {| cfg_Algorithm := "secp256k1-raw"; cfg_Number := 0 |} = Ok w /\
    SignatureAddressSpec w = Panic "interface conversion" /\
    Address w = Panic "interface conversion".
Proof.
  assert (Hw : newWallet Ref.sample_state
                 {| cfg_Algorithm := "secp256k1-raw"; cfg_Number := 0 |} =
               Ok {| w_cfg := {| cfg_Algorithm := "secp256k1-raw";
                                 cfg_Number := 0 |};
                     w_state := Ref.sample_state;
                     w_signer := Ed25519Wrapped
                       ("ed25519:" +:+ Data Ref.sample_state) |})
    by (vm_compute; reflexivity).
  eexists. split; [exact Hw|].
  apply (SignatureAddressSpec_other_family_panics _ _ _ Hw).
  left. split; by right.
Defined.

(** Key number 3 under Ed25519-ADR8. *)
Lemma PrettyKind_number_witness :
  PrettyKind (Ref.raw_config "ed25519-adr8" 3) = Ok "file (ed25519-adr8:3)".
Proof.
  destruct (PrettyKind_number (Ref.raw_config "ed25519-adr8" 3)
              (Ref.raw_config "ed25519-adr8" 5) "ed25519-adr8" 3 5
              eq_refl eq_refl) as (Hshown & _ & _).
  destruct Hshown as [Hp _]; [by left|]. exact Hp.
Defined.

(** A key with the prefix, and one with a digit too many. *)
Lemma DataValidator_secp256k1_hex_witness :
  DataValidator "private key" (Ref.raw_config "secp256k1-raw" 0)
                (IString "0xc0ffee") = Ok tt /\
  exists cause,
    DataValidator "private key" (Ref.raw_config "secp256k1-raw" 0)
                  (IString "c0ffee1") =
      Err (Errorw "private key must be hex-encoded: %w" [] cause).
Proof.
  pose proof (DataValidator_secp256k1_hex (Ref.raw_config "secp256k1-raw" 0)
                {| cfg_Algorithm := "secp256k1-raw"; cfg_Number := 0 |}
                "0xc0ffee") as Hgood.
  pose proof (DataValidator_secp256k1_hex (Ref.raw_config "secp256k1-raw" 0)
                {| cfg_Algorithm := "secp256k1-raw"; cfg_Number := 0 |}
                "c0ffee1") as Hbad.
  destruct Hgood as [Hiff _]; [reflexivity..|].
  destruct Hbad as [_ Herr]; [reflexivity..|].
  split.
  - apply Hiff. split; [reflexivity|].
    apply (bool_decide_unpack (Forall _ _)). vm_compute. reflexivity.
  - destruct (Herr (Errorw "private key must be hex-encoded: %w" []
                      hex_ErrLength)) as [cause Hc]; [reflexivity|].
    exists cause. by rewrite <- Hc.
Defined.

(** The prompt for an Ed25519-Raw key; no prompt for a mnemonic algorithm
    under the private-key kind, nor for a kind that is not supported. *)
Lemma DataPrompt_of_supported_witness :
  (exists prompt,
     DataPrompt "private key" (Ref.raw_config "ed25519-raw" 0) =
       Ok (Some prompt)) /\
  DataValidator "private key" (Ref.raw_config "ed25519-adr8" 0)
                (IString "c0ffee") =
    Err (Errorf "unsupported algorithm for %s: %s"
                ["private key"; "ed25519-adr8"]) /\
  DataValidator "keystore" (Ref.raw_config "ed25519-raw" 0)
                (IString "c0ffee") =
    Err (Errorf "unsupported import kind: %s" ["keystore"]).
Proof.
  pose proof (DataPrompt_of_supported "private key"
                (Ref.raw_config "ed25519-raw" 0)
                {| cfg_Algorithm := "ed25519-raw"; cfg_Number := 0 |})
    as Hlisted.
  pose proof (DataPrompt_of_supported "private key"
                (Ref.raw_config "ed25519-adr8" 0)
                {| cfg_Algorithm := "ed25519-adr8"; cfg_Number := 0 |})
    as Hother.
  pose proof (DataPrompt_of_supported "keystore"
                (Ref.raw_config "ed25519-raw" 0)
                {| cfg_Algorithm := "ed25519-raw"; cfg_Number := 0 |})
    as Hkind.
  destruct Hlisted as (Hprompt & _ & _); [reflexivity|].
  destruct Hother as (_ & Hreject & _); [reflexivity|].
  destruct Hkind as (_ & _ & Hnokind); [reflexivity|].
  split; [|split].
  - apply Hprompt.
    apply (bool_decide_unpack (_ ∈ _)). vm_compute. reflexivity.
  - apply Hreject; [reflexivity|].
    apply (bool_decide_unpack (_ ∉ _)). vm_compute. reflexivity.
  - apply Hnokind.
    apply (bool_decide_unpack (_ ∉ _)). vm_compute. reflexivity.
Defined.

(** Any answer passes for a mnemonic, and for a private key when the
    configuration is nil. *)
Lemma DataValidator_unchecked_witness :
  DataValidator "mnemonic" (Ref.raw_config "ed25519-adr8" 0)
                (IString "not a mnemonic") = Ok tt /\
  DataValidator "private key" None (IString "not a key") = Ok tt /\
  DataPrompt "private key" None = Ok None.
Proof.
  destruct DataValidator_unchecked as [Hmnemonic Hnil].
  split; [apply Hmnemonic|].
  eapply Hnil. reflexivity.
Defined.
End MoreRuns.

(** The sample messages: the executable of the one binary is returned. *)
Lemma Build_returns_last_binary_witness :
  (@Cargo.Build (Cargo.ran Cargo.sample_outputs) true "wasm32-unknown-unknown"
     (Some ["debug"; "sgx"])).1 = Ok "target/debug/app".
Proof.
  destruct (@CargoFacts.Build_returns_last_binary
              (Cargo.ran Cargo.sample_outputs) true "wasm32-unknown-unknown"
              (Some ["debug"; "sgx"]) eq_refl eq_refl eq_refl) as [Hiff _].
  apply Hiff. split; [done|].
  eexists. split; [vm_compute; reflexivity | reflexivity].
Defined.

(** The sample messages from a process that exits with a failure: three
    lines are printed and the build-failed error is returned. *)
Lemma Build_prints_and_exit_witness :
  let failing : Cargo.Exec := fun _ _ =>
    {| Cargo.pipe_err := None; Cargo.start_err := None;
       Cargo.outputs := Cargo.sample_outputs;
       Cargo.wait_err := Some (ErrIO "exit status 101");
       Cargo.stderr := "error: could not compile" |} in
  (@Cargo.Build failing false "" None).2 =
    ["[built] dep 0.1.0" +:+ Cargo.nl;
     "warning: unused variable" +:+ Cargo.nl;
     "[built] app 0.1.0" +:+ Cargo.nl] /\
  (@Cargo.Build failing false "" None).1 =
    Err (Errorw ("build process failed: %w" +:+ Cargo.nl +:+
                 "Standard error output:" +:+ Cargo.nl +:+ "%s")
                ["error: could not compile"] (ErrIO "exit status 101")).
Proof.
  intros failing.
  destruct (@CargoFacts.Build_prints_and_exit failing false "" None
              eq_refl eq_refl) as [Hprinted Hexit].
  split; [by rewrite Hprinted | by apply Hexit].
Defined.
